(** * LatexController: the "insert LaTeX formula" workflow

    A shallow embedding of [src/control/LatexController.cpp].  The controller
    is a C++ object whose methods mutate its fields, call into the document,
    the dialog and the file system, and may abort (a failed [g_assert], a
    method call through a null pointer).  Methods are therefore functions in
    a state-and-fault monad over the controller's fields and the part of the
    outside world the controller touches.  [double] is IEEE binary64
    ([PrimFloat]), [gint] is [Z], [std::string] is [string]. *)

From Stdlib Require Import PrimFloat FloatOps FloatAxioms SpecFloat.
From Stdlib Require Import String Ascii ZArith List Bool Lia.
Import ListNotations.
Open Scope string_scope.
Open Scope list_scope.

(** ** Collaborator data *)

(** [TexImage] (an [Element]): position, size, source text, the PDF bytes. *)
Record TexImage := mkTexImage {
  img_x : float;
  img_y : float;
  img_width : float;
  img_height : float;
  img_text : string;
  img_binaryData : string }.

Definition setBinaryData (data : string) (img : TexImage) : TexImage :=
  {| img_x := img_x img; img_y := img_y img; img_width := img_width img;
     img_height := img_height img; img_text := img_text img;
     img_binaryData := data |}.

(** A plain [Text] element, as far as the controller reads it. *)
Record Text := mkText {
  txt_text : string;
  txt_width : float;
  txt_height : float }.

Inductive Element :=
| ElTex (t : TexImage)
| ElText (t : Text).

Definition XojPageView := nat.
Definition PageRef := nat.
Definition Layer := nat.
Definition GPid := Z.
Bind Scope Z_scope with GPid.

(** A [PopplerDocument]: the (width, height) of each of its pages. *)
Definition PopplerDocument := list (float * float).

(** What [poppler_document_new_from_data] makes of a file's bytes. *)
Inductive PopplerResult :=
| PopplerError                       (* err != NULL *)
| PopplerNull                        (* pdf == NULL, no error set *)
| PopplerOk (pdf : PopplerDocument).

(** The scratch output [texTmp + "/tex.pdf"]. *)
Inductive FileState :=
| FileMissing                        (* !pdfPath.exists() *)
| FileUnreadable                     (* g_file_get_contents fails *)
| FileData (contents : string) (parsed : PopplerResult).

Definition exists_ (f : FileState) : bool :=
  match f with FileMissing => false | _ => true end.

(** Calls the controller makes on the document, the page view, the layer,
    the undo handler and the selection, in the order it makes them.  A
    [TexImage*] argument may be null. *)
Inductive DocCall :=
| Doc_lock
| Doc_unlock
| Control_clearSelectionEndText
| Xournal_deleteSelection (v : XojPageView) (e : Element) (p : option PageRef)
| Layer_addElement (l : Layer) (img : option TexImage)
| View_rerenderElement (v : XojPageView) (img : option TexImage)
| Undo_addInsertUndoAction (p : option PageRef) (l : Layer) (img : option TexImage)
| Xournal_setSelection (v : XojPageView) (img : option TexImage) (p : option PageRef).

(** Error dialogs ([XojMsgBox::showErrorToUser]). *)
Inductive Msg :=
| MsgNoPdflatex                      (* "Could not find pdflatex in Path..." *)
| MsgSaveTexFailed                   (* "Could not save .tex file: {1}" *)
| MsgSpawnFailed                     (* "Could not start pdflatex: {1} ..." *)
| MsgPdflatexError (code : Z)        (* "pdflatex encountered an error: ..." *)
| MsgReadPdfFailed                   (* "... File Error: {1}" *)
| MsgParsePdfFailed                  (* "Could not load LaTeX PDF file: {1}" *)
| MsgPdfNull.                        (* "Could not load LaTeX PDF file" *)

(** The widgets of [LatexDialog] the controller drives: the sensitivity of
    "texokbutton", the text of "texErrorLabel", and the preview last handed
    to [setTempRender] (the render's bytes and the text length). *)
Record LatexDialog := mkLatexDialog {
  okSensitive : bool;
  errorLabel : string;
  tempRender : option (string * nat) }.

(** ** The controller and the world around it *)

Record LatexController := mkLatexController {
  binTex : string;
  initalTex : string;
  currentTex : string;
  lastPreviewedTex : string;
  isUpdating : bool;
  isValidTex : bool;
  posx : float;
  posy : float;
  imgwidth : float;
  imgheight : float;
  view : option XojPageView;
  page : option PageRef;
  layer : option Layer;
  selectedTexImage : option TexImage;
  selectedText : option Text;
  temporaryRender : option TexImage;
  dlg : option LatexDialog }.

(** [texFile], [pdfFile]: the two scratch files.  [watches]: the child
    watches registered with [g_child_watch_add] that have not fired yet,
    each with its [PdfRenderCallbackData::second].  [invocations]: the
    contents of every [g_file_set_contents] call of [runCommandAsync], that
    is, one entry for each render the controller set out to start.
    [messages]: the error dialogs shown.  [calls]: the document calls. *)
Record World := mkWorld {
  texFile : option string;
  pdfFile : FileState;
  watches : list (GPid * bool);
  invocations : list string;
  messages : list Msg;
  calls : list DocCall }.

Record State := mkState { self : LatexController; world : World }.

Definition set_okSensitive (v : bool) (d : LatexDialog) : LatexDialog :=
  {| okSensitive := v; errorLabel := errorLabel d; tempRender := tempRender d |}.
Definition set_errorLabel (v : string) (d : LatexDialog) : LatexDialog :=
  {| okSensitive := okSensitive d; errorLabel := v; tempRender := tempRender d |}.
Definition set_tempRender (v : option (string * nat)) (d : LatexDialog) : LatexDialog :=
  {| okSensitive := okSensitive d; errorLabel := errorLabel d; tempRender := v |}.

Definition set_binTex (v : string) (c : LatexController) : LatexController :=
  {| binTex := v; initalTex := initalTex c; currentTex := currentTex c; lastPreviewedTex := lastPreviewedTex c; isUpdating := isUpdating c; isValidTex := isValidTex c; posx := posx c; posy := posy c; imgwidth := imgwidth c; imgheight := imgheight c; view := view c; page := page c; layer := layer c; selectedTexImage := selectedTexImage c; selectedText := selectedText c; temporaryRender := temporaryRender c; dlg := dlg c |}.
Definition set_initalTex (v : string) (c : LatexController) : LatexController :=
  {| binTex := binTex c; initalTex := v; currentTex := currentTex c; lastPreviewedTex := lastPreviewedTex c; isUpdating := isUpdating c; isValidTex := isValidTex c; posx := posx c; posy := posy c; imgwidth := imgwidth c; imgheight := imgheight c; view := view c; page := page c; layer := layer c; selectedTexImage := selectedTexImage c; selectedText := selectedText c; temporaryRender := temporaryRender c; dlg := dlg c |}.
Definition set_currentTex (v : string) (c : LatexController) : LatexController :=
  {| binTex := binTex c; initalTex := initalTex c; currentTex := v; lastPreviewedTex := lastPreviewedTex c; isUpdating := isUpdating c; isValidTex := isValidTex c; posx := posx c; posy := posy c; imgwidth := imgwidth c; imgheight := imgheight c; view := view c; page := page c; layer := layer c; selectedTexImage := selectedTexImage c; selectedText := selectedText c; temporaryRender := temporaryRender c; dlg := dlg c |}.
Definition set_lastPreviewedTex (v : string) (c : LatexController) : LatexController :=
  {| binTex := binTex c; initalTex := initalTex c; currentTex := currentTex c; lastPreviewedTex := v; isUpdating := isUpdating c; isValidTex := isValidTex c; posx := posx c; posy := posy c; imgwidth := imgwidth c; imgheight := imgheight c; view := view c; page := page c; layer := layer c; selectedTexImage := selectedTexImage c; selectedText := selectedText c; temporaryRender := temporaryRender c; dlg := dlg c |}.
Definition set_isUpdating (v : bool) (c : LatexController) : LatexController :=
  {| binTex := binTex c; initalTex := initalTex c; currentTex := currentTex c; lastPreviewedTex := lastPreviewedTex c; isUpdating := v; isValidTex := isValidTex c; posx := posx c; posy := posy c; imgwidth := imgwidth c; imgheight := imgheight c; view := view c; page := page c; layer := layer c; selectedTexImage := selectedTexImage c; selectedText := selectedText c; temporaryRender := temporaryRender c; dlg := dlg c |}.
Definition set_isValidTex (v : bool) (c : LatexController) : LatexController :=
  {| binTex := binTex c; initalTex := initalTex c; currentTex := currentTex c; lastPreviewedTex := lastPreviewedTex c; isUpdating := isUpdating c; isValidTex := v; posx := posx c; posy := posy c; imgwidth := imgwidth c; imgheight := imgheight c; view := view c; page := page c; layer := layer c; selectedTexImage := selectedTexImage c; selectedText := selectedText c; temporaryRender := temporaryRender c; dlg := dlg c |}.
Definition set_posx (v : float) (c : LatexController) : LatexController :=
  {| binTex := binTex c; initalTex := initalTex c; currentTex := currentTex c; lastPreviewedTex := lastPreviewedTex c; isUpdating := isUpdating c; isValidTex := isValidTex c; posx := v; posy := posy c; imgwidth := imgwidth c; imgheight := imgheight c; view := view c; page := page c; layer := layer c; selectedTexImage := selectedTexImage c; selectedText := selectedText c; temporaryRender := temporaryRender c; dlg := dlg c |}.
Definition set_posy (v : float) (c : LatexController) : LatexController :=
  {| binTex := binTex c; initalTex := initalTex c; currentTex := currentTex c; lastPreviewedTex := lastPreviewedTex c; isUpdating := isUpdating c; isValidTex := isValidTex c; posx := posx c; posy := v; imgwidth := imgwidth c; imgheight := imgheight c; view := view c; page := page c; layer := layer c; selectedTexImage := selectedTexImage c; selectedText := selectedText c; temporaryRender := temporaryRender c; dlg := dlg c |}.
Definition set_imgwidth (v : float) (c : LatexController) : LatexController :=
  {| binTex := binTex c; initalTex := initalTex c; currentTex := currentTex c; lastPreviewedTex := lastPreviewedTex c; isUpdating := isUpdating c; isValidTex := isValidTex c; posx := posx c; posy := posy c; imgwidth := v; imgheight := imgheight c; view := view c; page := page c; layer := layer c; selectedTexImage := selectedTexImage c; selectedText := selectedText c; temporaryRender := temporaryRender c; dlg := dlg c |}.
Definition set_imgheight (v : float) (c : LatexController) : LatexController :=
  {| binTex := binTex c; initalTex := initalTex c; currentTex := currentTex c; lastPreviewedTex := lastPreviewedTex c; isUpdating := isUpdating c; isValidTex := isValidTex c; posx := posx c; posy := posy c; imgwidth := imgwidth c; imgheight := v; view := view c; page := page c; layer := layer c; selectedTexImage := selectedTexImage c; selectedText := selectedText c; temporaryRender := temporaryRender c; dlg := dlg c |}.
Definition set_view (v : option XojPageView) (c : LatexController) : LatexController :=
  {| binTex := binTex c; initalTex := initalTex c; currentTex := currentTex c; lastPreviewedTex := lastPreviewedTex c; isUpdating := isUpdating c; isValidTex := isValidTex c; posx := posx c; posy := posy c; imgwidth := imgwidth c; imgheight := imgheight c; view := v; page := page c; layer := layer c; selectedTexImage := selectedTexImage c; selectedText := selectedText c; temporaryRender := temporaryRender c; dlg := dlg c |}.
Definition set_page (v : option PageRef) (c : LatexController) : LatexController :=
  {| binTex := binTex c; initalTex := initalTex c; currentTex := currentTex c; lastPreviewedTex := lastPreviewedTex c; isUpdating := isUpdating c; isValidTex := isValidTex c; posx := posx c; posy := posy c; imgwidth := imgwidth c; imgheight := imgheight c; view := view c; page := v; layer := layer c; selectedTexImage := selectedTexImage c; selectedText := selectedText c; temporaryRender := temporaryRender c; dlg := dlg c |}.
Definition set_layer (v : option Layer) (c : LatexController) : LatexController :=
  {| binTex := binTex c; initalTex := initalTex c; currentTex := currentTex c; lastPreviewedTex := lastPreviewedTex c; isUpdating := isUpdating c; isValidTex := isValidTex c; posx := posx c; posy := posy c; imgwidth := imgwidth c; imgheight := imgheight c; view := view c; page := page c; layer := v; selectedTexImage := selectedTexImage c; selectedText := selectedText c; temporaryRender := temporaryRender c; dlg := dlg c |}.
Definition set_selectedTexImage (v : option TexImage) (c : LatexController) : LatexController :=
  {| binTex := binTex c; initalTex := initalTex c; currentTex := currentTex c; lastPreviewedTex := lastPreviewedTex c; isUpdating := isUpdating c; isValidTex := isValidTex c; posx := posx c; posy := posy c; imgwidth := imgwidth c; imgheight := imgheight c; view := view c; page := page c; layer := layer c; selectedTexImage := v; selectedText := selectedText c; temporaryRender := temporaryRender c; dlg := dlg c |}.
Definition set_selectedText (v : option Text) (c : LatexController) : LatexController :=
  {| binTex := binTex c; initalTex := initalTex c; currentTex := currentTex c; lastPreviewedTex := lastPreviewedTex c; isUpdating := isUpdating c; isValidTex := isValidTex c; posx := posx c; posy := posy c; imgwidth := imgwidth c; imgheight := imgheight c; view := view c; page := page c; layer := layer c; selectedTexImage := selectedTexImage c; selectedText := v; temporaryRender := temporaryRender c; dlg := dlg c |}.
Definition set_temporaryRender (v : option TexImage) (c : LatexController) : LatexController :=
  {| binTex := binTex c; initalTex := initalTex c; currentTex := currentTex c; lastPreviewedTex := lastPreviewedTex c; isUpdating := isUpdating c; isValidTex := isValidTex c; posx := posx c; posy := posy c; imgwidth := imgwidth c; imgheight := imgheight c; view := view c; page := page c; layer := layer c; selectedTexImage := selectedTexImage c; selectedText := selectedText c; temporaryRender := v; dlg := dlg c |}.
Definition set_dlg (v : option LatexDialog) (c : LatexController) : LatexController :=
  {| binTex := binTex c; initalTex := initalTex c; currentTex := currentTex c; lastPreviewedTex := lastPreviewedTex c; isUpdating := isUpdating c; isValidTex := isValidTex c; posx := posx c; posy := posy c; imgwidth := imgwidth c; imgheight := imgheight c; view := view c; page := page c; layer := layer c; selectedTexImage := selectedTexImage c; selectedText := selectedText c; temporaryRender := temporaryRender c; dlg := v |}.

Definition set_texFile (v : option string) (w : World) : World :=
  {| texFile := v; pdfFile := pdfFile w; watches := watches w; invocations := invocations w; messages := messages w; calls := calls w |}.
Definition set_pdfFile (v : FileState) (w : World) : World :=
  {| texFile := texFile w; pdfFile := v; watches := watches w; invocations := invocations w; messages := messages w; calls := calls w |}.
Definition set_watches (v : list (GPid * bool)) (w : World) : World :=
  {| texFile := texFile w; pdfFile := pdfFile w; watches := v; invocations := invocations w; messages := messages w; calls := calls w |}.
Definition set_invocations (v : list string) (w : World) : World :=
  {| texFile := texFile w; pdfFile := pdfFile w; watches := watches w; invocations := v; messages := messages w; calls := calls w |}.
Definition set_messages (v : list Msg) (w : World) : World :=
  {| texFile := texFile w; pdfFile := pdfFile w; watches := watches w; invocations := invocations w; messages := v; calls := calls w |}.
Definition set_calls (v : list DocCall) (w : World) : World :=
  {| texFile := texFile w; pdfFile := pdfFile w; watches := watches w; invocations := invocations w; messages := messages w; calls := v |}.

Definition on_self (f : LatexController -> LatexController) (s : State) : State :=
  {| self := f (self s); world := world s |}.
Definition on_world (f : World -> World) (s : State) : State :=
  {| self := self s; world := f (world s) |}.

(** ** The monad: state, and the two ways a method aborts *)

Inductive Fault :=
| AssertionFailed                    (* g_assert *)
| NullPointer.                       (* a call through a null pointer *)

Inductive Result (A : Type) :=
| Ok (a : A) (s : State)
| Crash (f : Fault).
Arguments Ok {A} a s.
Arguments Crash {A} f.

Definition M (A : Type) := State -> Result A.

Definition ret {A} (a : A) : M A := fun s => Ok a s.
Definition bind {A B} (m : M A) (k : A -> M B) : M B :=
  fun s => match m s with
           | Ok a s' => k a s'
           | Crash f => Crash f
           end.
Definition crash {A} (f : Fault) : M A := fun _ => Crash f.
Definition get : M State := fun s => Ok s s.
Definition this_ {A} (f : LatexController -> A) : M A := fun s => Ok (f (self s)) s.
Definition assign (f : LatexController -> LatexController) : M unit :=
  fun s => Ok tt (on_self f s).
Definition outside (f : World -> World) : M unit :=
  fun s => Ok tt (on_world f s).

Declare Scope latex_scope.
Delimit Scope latex_scope with latex.
Notation "x <- m ;; k" := (bind m (fun x => k))
  (at level 61, m at next level, right associativity) : latex_scope.
Notation "m ;; k" := (bind m (fun _ => k))
  (at level 61, right associativity) : latex_scope.
Open Scope latex_scope.

Definition when (b : bool) (m : M unit) : M unit := if b then m else ret tt.

Definition g_assert (b : bool) : M unit :=
  if b then ret tt else crash AssertionFailed.

(** Dereference of a pointer field. *)
Definition deref {A} (f : LatexController -> option A) : M A :=
  p <- this_ f ;;
  match p with
  | Some a => ret a
  | None => crash NullPointer
  end.

Definition showErrorToUser (m : Msg) : M unit :=
  outside (fun w => set_messages (messages w ++ [m]) w).

Definition call (c : DocCall) : M unit :=
  outside (fun w => set_calls (calls w ++ [c]) w).

(** ** GLib: the exit status of a child *)

Inductive GQuark := G_SPAWN_EXIT_ERROR | G_SPAWN_ERROR.

Record GError := mkGError { domain : GQuark; code : Z }.

Definition G_SPAWN_ERROR_FAILED : Z := 19.

(** The wait status of [waitpid]: the low seven bits are the terminating
    signal (zero for a normal exit), the next byte up is the exit code. *)
Definition WIFEXITED (status : Z) : bool := Z.eqb (Z.land status 127) 0.
Definition WEXITSTATUS (status : Z) : Z := Z.land (Z.shiftr status 8) 255.

(** [g_spawn_check_exit_status]: no error for a normal exit with code 0;
    [G_SPAWN_EXIT_ERROR] carrying the exit code for a normal exit with
    another code; [G_SPAWN_ERROR_FAILED] for a child that was killed,
    stopped, or ended abnormally. *)
Definition g_spawn_check_exit_status (exit_status : Z) : option GError :=
  if WIFEXITED exit_status then
    if Z.eqb (WEXITSTATUS exit_status) 0 then None
    else Some {| domain := G_SPAWN_EXIT_ERROR; code := WEXITSTATUS exit_status |}
  else Some {| domain := G_SPAWN_ERROR; code := G_SPAWN_ERROR_FAILED |}.

Definition GQuark_eqb (a b : GQuark) : bool :=
  match a, b with
  | G_SPAWN_EXIT_ERROR, G_SPAWN_EXIT_ERROR => true
  | G_SPAWN_ERROR, G_SPAWN_ERROR => true
  | _, _ => false
  end.

Definition g_error_matches (err : GError) (d : GQuark) (c : Z) : bool :=
  GQuark_eqb (domain err) d && Z.eqb (code err) c.

(** The wait status of a child that exits normally with code [c]. *)
Definition W_EXITCODE (c : Z) : Z := Z.shiftl c 8.

(** ** The LaTeX template *)

Definition nl : string := String "010" "".

Definition LATEX_TEMPLATE_1 : string :=
  "\documentclass[crop, border=5pt]{standalone}" ++ nl ++
  "\usepackage{amsmath}" ++ nl ++
  "\usepackage{ifthen}" ++ nl ++
  "\begin{document}" ++ nl ++
  "\def\preview{\(\displaystyle" ++ nl.

Definition LATEX_TEMPLATE_2 : string :=
  nl ++ "\)}" ++ nl ++
  "\newlength{\pheight}" ++ nl ++
  "\settoheight{\pheight}{\hbox{\preview}}" ++ nl ++
  "\ifthenelse{\pheight=0.0pt}" ++ nl ++
  "{\GenericError{}{xournalpp: blank formula}{}{}}" ++ nl ++
  "{\preview}" ++ nl ++
  "\end{document}" ++ nl.

(** What [runCommandAsync] writes to tex.tex for the formula [tex]. *)
Definition texContents (tex : string) : string :=
  LATEX_TEMPLATE_1 ++ tex ++ LATEX_TEMPLATE_2.

(** ** The methods *)

(** [g_find_program_in_path "pdflatex"] is [pdflatex]. *)
Definition findTexExecutable (pdflatex : option string) : M bool :=
  match pdflatex with
  | None => ret false
  | Some path => assign (set_binTex path) ;; ret true
  end.

Definition gtk_widget_set_sensitive_ok (b : bool) : M unit :=
  d <- deref dlg ;;
  assign (set_dlg (Some (set_okSensitive b d))).

Definition gtk_label_set_text_error (t : string) : M unit :=
  d <- deref dlg ;;
  assign (set_dlg (Some (set_errorLabel t d))).

Definition setUpdating (newValue : bool) : M unit :=
  _ <- deref dlg ;;
  upd <- this_ isUpdating ;;
  when ((negb upd && newValue) || (upd && negb newValue))
       (gtk_widget_set_sensitive_ok (negb newValue)) ;;
  valid <- this_ isValidTex ;;
  gtk_widget_set_sensitive_ok valid ;;
  gtk_label_set_text_error
    (if valid then "" else "The formula is empty when rendered or invalid.") ;;
  assign (set_isUpdating newValue).

(** What the file system and the operating system answer to one
    [runCommandAsync]: whether [g_file_set_contents] succeeds, and the pid
    [g_spawn_async] returns when it succeeds. *)
Record Env := mkEnv { write_ok : bool; spawn : option GPid }.

Definition runCommandAsync (e : Env) : M (option GPid) :=
  upd <- this_ isUpdating ;;
  g_assert (negb upd) ;;
  cur <- this_ currentTex ;;
  outside (fun w => set_invocations (invocations w ++ [texContents cur]) w) ;;
  if negb (write_ok e) then
    showErrorToUser MsgSaveTexFailed ;;
    ret None
  else
    outside (set_texFile (Some (texContents cur))) ;;
    setUpdating true ;;
    assign (fun c => set_lastPreviewedTex (currentTex c) c) ;;
    match spawn e with
    | None =>
        showErrorToUser MsgSpawnFailed ;;
        setUpdating false ;;
        ret None
    | Some pid => ret (Some pid)
    end.

(** What the controller reads from [Control], the document and the view
    when it looks for the selection. *)
Record Control := mkControl {
  currentPageNo : Z;
  viewFor : option XojPageView;
  docPage : PageRef;
  selectedLayer : Layer;
  selectedTex : option TexImage;
  selectedTxt : option Text;
  xOnView : float;
  yOnView : float }.

Definition findSelectedTexElement (ctl : Control) : M unit :=
  call Doc_lock ;;
  if Z.eqb (currentPageNo ctl) (-1) then call Doc_unlock
  else
    assign (set_view (viewFor ctl)) ;;
    match viewFor ctl with
    | None => call Doc_unlock
    | Some _ =>
        assign (set_page (Some (docPage ctl))) ;;
        assign (set_layer (Some (selectedLayer ctl))) ;;
        assign (set_selectedTexImage (selectedTex ctl)) ;;
        assign (set_selectedText (selectedTxt ctl)) ;;
        match selectedTex ctl, selectedTxt ctl with
        | Some t, _ =>
            assign (set_posx (xOnView ctl)) ;;
            assign (set_posy (yOnView ctl)) ;;
            assign (set_initalTex (img_text t)) ;;
            assign (set_imgwidth (img_width t)) ;;
            assign (set_imgheight (img_height t))
        | None, Some t =>
            assign (set_posx (xOnView ctl)) ;;
            assign (set_posy (yOnView ctl)) ;;
            assign (fun c => set_initalTex (initalTex c ++ "\text{") c) ;;
            assign (fun c => set_initalTex (initalTex c ++ txt_text t) c) ;;
            assign (fun c => set_initalTex (initalTex c ++ "}") c) ;;
            assign (set_imgwidth (txt_width t)) ;;
            assign (set_imgheight (txt_height t))
        | None, None => ret tt
        end ;;
        ini <- this_ initalTex ;;
        when (String.eqb ini "") (assign (set_initalTex "x^2")) ;;
        assign (fun c => set_currentTex (initalTex c) c) ;;
        call Doc_unlock ;;
        call Control_clearSelectionEndText
    end.

Definition g_child_watch_add (pid : GPid) (isPreview : bool) : M unit :=
  outside (fun w => set_watches (watches w ++ [(pid, isPreview)]) w).

Definition triggerImageUpdate (isPreview : bool) (e : Env) : M unit :=
  upd <- this_ isUpdating ;;
  if upd then ret tt
  else
    pid <- runCommandAsync e ;;
    match pid with
    | Some p =>
        upd' <- this_ isUpdating ;;
        g_assert upd' ;;
        g_child_watch_add p isPreview
    | None => ret tt
    end.

Definition setCurrentTex (tex : string) : M unit :=
  assign (set_currentTex tex).

(** [buffer] is the text of the dialog's buffer after the change. *)
Definition handleTexChanged (buffer : string) (e : Env) : M unit :=
  setCurrentTex buffer ;;
  triggerImageUpdate true e.

Definition deletePreviousRender : M unit :=
  assign (set_temporaryRender None).

Definition setImageInDialog (pdf : string) : M unit :=
  d <- deref dlg ;;
  cur <- this_ currentTex ;;
  assign (set_dlg (Some (set_tempRender (Some (pdf, String.length cur)) d))).

Definition deleteOldImage : M unit :=
  tex <- this_ selectedTexImage ;;
  match tex with
  | Some t =>
      v <- deref view ;;
      p <- this_ page ;;
      call (Xournal_deleteSelection v (ElTex t) p) ;;
      assign (set_selectedTexImage None)
  | None =>
      txt <- this_ selectedText ;;
      match txt with
      | Some t =>
          v <- deref view ;;
          p <- this_ page ;;
          call (Xournal_deleteSelection v (ElText t) p) ;;
          assign (set_selectedText None)
      | None => ret tt
      end
  end.

(** [if (imgheight)], [ratio == 0], [imgwidth == 0] are comparisons of
    doubles with zero. *)
Definition is_zero (x : float) : bool := PrimFloat.eqb x 0%float.

Definition convertDocumentToImage (c : LatexController) (doc : PopplerDocument)
  : option TexImage :=
  match doc with
  | [] => None
  | (pageWidth, pageHeight) :: _ =>
      let (w, h) :=
        if negb (is_zero (imgheight c)) then
          let ratio := (pageWidth / pageHeight)%float in
          (if is_zero ratio then
             if is_zero (imgwidth c) then 10%float else imgwidth c
           else (imgheight c * ratio)%float,
           imgheight c)
        else (pageWidth, pageHeight) in
      Some {| img_x := posx c; img_y := posy c; img_width := w; img_height := h;
              img_text := currentTex c; img_binaryData := "" |}
  end.

Definition loadRendered : M (option TexImage) :=
  s <- get ;;
  match pdfFile (world s) with
  | FileMissing => ret None
  | FileUnreadable => showErrorToUser MsgReadPdfFailed ;; ret None
  | FileData fileContents PopplerError =>
      showErrorToUser MsgParsePdfFailed ;; ret None
  | FileData fileContents PopplerNull =>
      showErrorToUser MsgPdfNull ;; ret None
  | FileData fileContents (PopplerOk pdf) =>
      match convertDocumentToImage (self s) pdf with
      | None => crash NullPointer          (* img->setBinaryData, img == NULL *)
      | Some img => ret (Some (setBinaryData fileContents img))
      end
  end.

Definition insertTexImage : M unit :=
  img <- loadRendered ;;
  deleteOldImage ;;
  call Doc_lock ;;
  l <- deref layer ;;
  call (Layer_addElement l img) ;;
  v <- deref view ;;
  call (View_rerenderElement v img) ;;
  call Doc_unlock ;;
  p <- this_ page ;;
  call (Undo_addInsertUndoAction p l img) ;;
  call (Xournal_setSelection v img p).

Definition onPdfRenderComplete (returnCode : Z) (isPreview : bool) (e : Env)
  : M unit :=
  upd <- this_ isUpdating ;;
  g_assert upd ;;
  let err := g_spawn_check_exit_status returnCode in
  c <- this_ (fun c => c) ;;
  let shouldUpdate := negb (String.eqb (lastPreviewedTex c) (currentTex c)) in
  match err with
  | Some er =>
      assign (set_isValidTex false) ;;
      when (negb (g_error_matches er G_SPAWN_EXIT_ERROR 1))
           (showErrorToUser (MsgPdflatexError (code er))) ;;
      s <- get ;;
      when (exists_ (pdfFile (world s))) (outside (set_pdfFile FileMissing))
  | None =>
      assign (set_isValidTex true) ;;
      if isPreview then
        deletePreviousRender ;;
        r <- loadRendered ;;
        assign (set_temporaryRender r) ;;
        match r with
        | Some img => setImageInDialog (img_binaryData img)
        | None => ret tt
        end
      else insertTexImage
  end ;;
  setUpdating false ;;
  when shouldUpdate (triggerImageUpdate true e).

(** ** The dialog's main loop *)

(** What can happen while [dlg->show] runs the main loop: the user edits
    the buffer, or the watched child ends.  [out] is the state in which the
    child leaves tex.pdf; [e] answers the render the handler may start. *)
Inductive Event :=
| TexChanged (buffer : string) (e : Env)
| ChildExited (returnCode : Z) (out : FileState) (e : Env).

(** GLib calls a child watch once and drops it; with no watch registered
    there is no child to end and nothing is run. *)
Definition dispatch (ev : Event) : M unit :=
  match ev with
  | TexChanged buffer e => handleTexChanged buffer e
  | ChildExited returnCode out e =>
      s <- get ;;
      match watches (world s) with
      | [] => ret tt
      | (_, isPreview) :: rest =>
          outside (set_watches rest) ;;
          outside (set_pdfFile out) ;;
          onPdfRenderComplete returnCode isPreview e
      end
  end.

Fixpoint gtk_dialog_run (evs : list Event) : M unit :=
  match evs with
  | [] => ret tt
  | ev :: rest => dispatch ev ;; gtk_dialog_run rest
  end.

(** [fresh] is the dialog as [new LatexDialog] builds it, [evs] what
    happens while it is shown, [dlgTex] what [dlg->getTex()] answers once
    it is closed. *)
Definition showTexEditDialog (fresh : LatexDialog) (evs : list Event)
  (dlgTex : string) : M unit :=
  assign (set_dlg (Some fresh)) ;;
  r <- this_ temporaryRender ;;
  match r with
  | Some img =>
      d <- deref dlg ;;
      ini <- this_ initalTex ;;
      assign (set_dlg (Some (set_tempRender
                (Some (img_binaryData img, String.length ini)) d)))
  | None => ret tt
  end ;;
  gtk_dialog_run evs ;;
  deletePreviousRender ;;
  assign (set_currentTex dlgTex) ;;
  assign (fun c => set_currentTex (currentTex c ++ " ") c) ;;
  assign (set_dlg None).

Section Run.

(** [StringUtils::trim]. *)
Variable trim : string -> string.

Definition run (pdflatex : option string) (ctl : Control)
  (fresh : LatexDialog) (evs : list Event) (dlgTex : string) : M unit :=
  found <- findTexExecutable pdflatex ;;
  if negb found then showErrorToUser MsgNoPdflatex
  else
    findSelectedTexElement ctl ;;
    showTexEditDialog fresh evs dlgTex ;;
    c <- this_ (fun c => c) ;;
    if String.eqb (trim (currentTex c)) "" || String.eqb (initalTex c) (currentTex c)
    then ret tt
    else insertTexImage.

End Run.

(** The controller as its constructor leaves it (the strings empty, the
    pointers null, the sizes zero), given the two flags. *)
Definition LatexController_new (updating valid : bool) : LatexController :=
  {| binTex := ""; initalTex := ""; currentTex := ""; lastPreviewedTex := "";
     isUpdating := updating; isValidTex := valid;
     posx := 0; posy := 0; imgwidth := 0; imgheight := 0;
     view := None; page := None; layer := None;
     selectedTexImage := None; selectedText := None;
     temporaryRender := None; dlg := None |}.

Definition World_new (pdf : FileState) : World :=
  {| texFile := None; pdfFile := pdf; watches := []; invocations := [];
     messages := []; calls := [] |}.

(** * Predicates of the specification *)

(** What holds between two events while the dialog is shown: the dialog
    exists, and either nothing is in flight and nothing is watched, or a
    render is in flight and exactly one child, a preview, is watched. *)
Definition session_inv (s : State) : Prop :=
  dlg (self s) <> None /\
  ((isUpdating (self s) = false /\ watches (world s) = []) \/
   (isUpdating (self s) = true /\ exists pid, watches (world s) = [(pid, true)])).

(** The OK button is sensitive exactly when the formula counts as valid. *)
Definition button_follows_validity (s : State) : Prop :=
  exists d, dlg (self s) = Some d /\ okSensitive d = isValidTex (self s).

(** Elements taken from or added to a layer, and undo records pushed. *)
Definition mutation (c : DocCall) : bool :=
  match c with
  | Xournal_deleteSelection _ _ _ => true
  | Layer_addElement _ _ => true
  | Undo_addInsertUndoAction _ _ _ => true
  | _ => false
  end.

Definition mutations (s : State) : list DocCall :=
  filter mutation (calls (world s)).

(** tex.pdf parses, and has no page. *)
Definition has_no_page (f : FileState) : bool :=
  match f with
  | FileData _ (PopplerOk []) => true
  | _ => false
  end.

(** The child exits with status 0 and leaves a PDF without pages:
    [convertDocumentToImage] answers null and [loadRendered] calls
    [setBinaryData] through it. *)
Definition blank_success (returnCode : Z) (out : FileState) : bool :=
  match g_spawn_check_exit_status returnCode with
  | None => has_no_page out
  | Some _ => false
  end.

(** The buffer texts [texts], typed one after the other while a render is
    in flight. *)
Definition typed (texts : list string) (s : State) : State :=
  fold_left (fun s t => on_self (set_currentTex t) s) texts s.

Definition edit (te : string * Env) : Event := TexChanged (fst te) (snd te).

Definition invalid_label : string :=
  "The formula is empty when rendered or invalid.".

(** The ways [loadRendered] gives up and answers null: tex.pdf missing,
    unreadable, or not a PDF poppler can parse. *)
Definition load_fails (f : FileState) : bool :=
  match f with
  | FileMissing | FileUnreadable => true
  | FileData _ PopplerError | FileData _ PopplerNull => true
  | FileData _ (PopplerOk _) => false
  end.

(** The call by which [deleteOldImage] removes the element that was
    selected when the session began, if one was. *)
Definition deletion_of_selected (c : LatexController) (v : XojPageView)
  : list DocCall :=
  match selectedTexImage c, selectedText c with
  | Some t, _ => [Xournal_deleteSelection v (ElTex t) (page c)]
  | None, Some t => [Xournal_deleteSelection v (ElText t) (page c)]
  | None, None => []
  end.

(** A method is quiet when it neither takes an element from a layer, nor
    adds one, nor pushes an undo record, and leaves the in-flight flag and
    the watches alone. *)
Definition frame (s s' : State) : Prop :=
  mutations s' = mutations s /\
  isUpdating (self s') = isUpdating (self s) /\
  watches (world s') = watches (world s).

Definition quiet {A} (m : M A) : Prop :=
  forall s, match m s with
            | Ok _ s' => frame s s'
            | Crash _ => True
            end.

(** ** The document lock *)

(** Whether the document lock is held after the calls [cs], from [held];
    [None] when a call breaks the discipline: the lock is taken while
    held, released while free, or an element is added to a layer or
    rerendered without it. *)
Fixpoint lock_discipline (held : bool) (cs : list DocCall) : option bool :=
  match cs with
  | [] => Some held
  | Doc_lock :: rest => if held then None else lock_discipline true rest
  | Doc_unlock :: rest => if held then lock_discipline false rest else None
  | Layer_addElement _ _ :: rest =>
      if held then lock_discipline held rest else None
  | View_rerenderElement _ _ :: rest =>
      if held then lock_discipline held rest else None
  | _ :: rest => lock_discipline held rest
  end.

(** A method takes a disciplined document from lock state [h] to [h']. *)
Definition locks {A} (m : M A) (h h' : bool) : Prop :=
  forall s,
    lock_discipline false (calls (world s)) = Some h ->
    match m s with
    | Ok _ s' => lock_discipline false (calls (world s')) = Some h'
    | Crash _ => True
    end.

(** A method keeps the invariant [P], whenever it returns. *)
Definition keeps {A} (P : State -> Prop) (m : M A) : Prop :=
  forall s, P s ->
    match m s with
    | Ok _ s' => P s'
    | Crash _ => True
    end.

(** ** More of the session *)

(** While a render is in flight, tex.tex holds the template around
    [lastPreviewedTex], and that is the latest invocation. *)
Definition submitted_inv (s : State) : Prop :=
  isUpdating (self s) = true ->
  texFile (world s) = Some (texContents (lastPreviewedTex (self s))) /\
  last (invocations (world s)) "" = texContents (lastPreviewedTex (self s)).

(** Every child exit but the blank success. *)
Definition no_blank_success (ev : Event) : bool :=
  match ev with
  | TexChanged _ _ => true
  | ChildExited returnCode out _ => negb (blank_success returnCode out)
  end.

(** The height of the element selected when the session begins. *)
Definition selected_height (ctl : Control) : option float :=
  match selectedTex ctl, selectedTxt ctl with
  | Some t, _ => Some (img_height t)
  | None, Some t => Some (txt_height t)
  | None, None => None
  end.

(** The six calls by which [insertTexImage] puts [img] into the document. *)
Definition insertion_of (c : LatexController) (l : Layer) (v : XojPageView)
  (img : option TexImage) : list DocCall :=
  [Doc_lock; Layer_addElement l img; View_rerenderElement v img; Doc_unlock;
   Undo_addInsertUndoAction (page c) l img; Xournal_setSelection v img (page c)].

(** ** Trimming *)

(** Modelled from the spec: [StringUtils::trim] is not part of this file,
    and the spec only says of it that a text "trims to empty".  Here it
    removes the blanks at both ends. *)
Fixpoint trim_left (t : string) : string :=
  match t with
  | String " " rest => trim_left rest
  | _ => t
  end.

Fixpoint trim_right (t : string) : string :=
  match t with
  | EmptyString => EmptyString
  | String c rest =>
      match trim_right rest with
      | EmptyString => if Ascii.eqb c " " then EmptyString else String c EmptyString
      | kept => String c kept
      end
  end.

Definition trim_blanks (t : string) : string := trim_right (trim_left t).

(** * Sessions to run the model on *)

Definition okEnv (pid : GPid) : Env := {| write_ok := true; spawn := Some pid |}.

Definition dialog_as_built : LatexDialog :=
  {| okSensitive := true; errorLabel := ""; tempRender := None |}.

(** A session as [showTexEditDialog] enters the main loop from a new
    controller. *)
Definition session_start : State :=
  {| self := set_dlg (Some dialog_as_built) (LatexController_new false false);
     world := World_new FileMissing |}.

(** The same with the formula counted as valid from the start. *)
Definition session_start_valid : State :=
  {| self := set_dlg (Some dialog_as_built) (LatexController_new false true);
     world := World_new FileMissing |}.

Definition one_page_pdf : FileState :=
  FileData "%PDF-1.5" (PopplerOk [(30%float, 12%float)]).

(** A render for "a" in flight, as the first edit of a session leaves it. *)
Definition rendering_a : State :=
  match handleTexChanged "a" (okEnv 7) session_start with
  | Ok _ s => s
  | Crash _ => session_start
  end.

(** A preview render of "ab" in flight after a first, successful render
    of "a": the formula is valid. *)
Definition rendering_ab : State :=
  match gtk_dialog_run [TexChanged "a" (okEnv 7);
                        ChildExited 0 one_page_pdf (okEnv 8);
                        TexChanged "ab" (okEnv 9)] session_start with
  | Ok _ s => s
  | Crash _ => session_start
  end.

(** A new controller, before [run]. *)
Definition new_session : State :=
  {| self := LatexController_new false false; world := World_new FileMissing |}.

(** Page 0 is current and shown by view 2; the text "note" is selected. *)
Definition text_selected : Control :=
  {| currentPageNo := 0; viewFor := Some 2%nat; docPage := 1%nat;
     selectedLayer := 3%nat; selectedTex := None;
     selectedTxt := Some {| txt_text := "note"; txt_width := 40; txt_height := 11 |};
     xOnView := 10; yOnView := 20 |}.

(** No page is current. *)
Definition no_current_page : Control :=
  {| currentPageNo := -1; viewFor := None; docPage := 0%nat;
     selectedLayer := 0%nat; selectedTex := None; selectedTxt := None;
     xOnView := 0; yOnView := 0 |}.

Definition formula_x2 : TexImage :=
  {| img_x := 10; img_y := 20; img_width := 30; img_height := 12;
     img_text := "x^2 "; img_binaryData := "%PDF-1.5" |}.

(** A formula is selected on page 0. *)
Definition formula_selected : Control :=
  {| currentPageNo := 0; viewFor := Some 2%nat; docPage := 1%nat;
     selectedLayer := 3%nat; selectedTex := Some formula_x2; selectedTxt := None;
     xOnView := 10; yOnView := 20 |}.

(** A controller about to commit: page 1, view 2, layer 3, a formula
    selected. *)
Definition committing (pdf : FileState) (typed_tex : string) : State :=
  {| self :=
       set_currentTex typed_tex
         (set_initalTex "x^2 "
            (set_selectedTexImage (Some formula_x2)
               (set_layer (Some 3%nat)
                  (set_page (Some 1%nat)
                     (set_view (Some 2%nat) (LatexController_new false true))))));
     world := World_new pdf |}.

(** A prior asset 7 wide and 5 high. *)
Definition resized_7_by_5 : LatexController :=
  set_imgheight 5 (set_imgwidth 7 (LatexController_new false true)).

(** * Proof methods *)

Arguments texContents : simpl never.
Arguments g_spawn_check_exit_status : simpl never.
Arguments g_error_matches : simpl never.
Arguments String.eqb : simpl never.
Arguments String.append : simpl never.
Arguments is_zero : simpl never.

(** States are kept as record literals: the setters are unfolded along
    with the methods. *)
Ltac unfold_setters :=
  unfold set_okSensitive, set_errorLabel, set_tempRender, set_binTex,
    set_initalTex, set_currentTex, set_lastPreviewedTex, set_isUpdating,
    set_isValidTex, set_posx, set_posy, set_imgwidth, set_imgheight,
    set_view, set_page, set_layer, set_selectedTexImage, set_selectedText,
    set_temporaryRender, set_dlg, set_texFile, set_pdfFile, set_watches,
    set_invocations, set_messages, set_calls in *.

(** Running a method symbolically: unfold it down to the monad, then split
    on whatever the control flow still waits for, innermost test first. *)
Ltac unfold_methods :=
  unfold dispatch, handleTexChanged, setCurrentTex, onPdfRenderComplete,
    triggerImageUpdate, runCommandAsync, g_child_watch_add, setUpdating,
    insertTexImage, deleteOldImage, loadRendered, setImageInDialog,
    deletePreviousRender, gtk_widget_set_sensitive_ok, gtk_label_set_text_error,
    findSelectedTexElement, findTexExecutable,
    showErrorToUser, call, deref, g_assert, when, this_, assign, outside, get,
    crash, bind, ret, on_self, on_world in *;
  unfold_setters.

Ltac split_match :=
  match goal with
  | |- context [match ?x with _ => _ end] =>
      lazymatch x with
      | context [match _ with _ => _ end] => fail
      | _ => destruct x eqn:?
      end
  end.

Ltac run_cases := repeat (split_match; cbn in *; try discriminate).

Ltac run_goal := repeat (split_match; cbn).

Ltac eqb_hyps :=
  repeat match goal with
  | H : negb _ = true |- _ => apply Bool.negb_true_iff in H
  | H : negb _ = false |- _ => apply Bool.negb_false_iff in H
  | H : String.eqb _ _ = true |- _ => apply String.eqb_eq in H
  | H : String.eqb _ _ = false |- _ => apply String.eqb_neq in H
  end.

Ltac destruct_state s :=
  destruct s as [[bT iT cT lT upd valid px py iw ih vw pg ly sTI sT tR dl]
                 [tf pf ws inv msgs cl]].

(** The same by lazy evaluation, which is faster on long methods: texts,
    lists and floating-point operations stay as they are written. *)
Ltac eval_methods :=
  lazy -[texContents last app String.eqb String.append is_zero
         g_spawn_check_exit_status g_error_matches PrimFloat.div PrimFloat.mul].

Ltac run_lazy := eval_methods; repeat (split_match; eval_methods).

(** * Theorems *)

(** ** The preview session *)

(** An event keeps the session invariant, calls nothing on the document,
    and trips no assertion. *)
Lemma dispatch_session ev s :
  session_inv s ->
  match dispatch ev s with
  | Ok _ s' => session_inv s' /\ calls (world s') = calls (world s)
  | Crash f => f = NullPointer
  end.
Proof.
  destruct_state s. unfold session_inv. cbn.
  intros [Hd [[Hu Hw] | [Hu [pid Hw]]]]; subst;
    (destruct dl as [d|]; [clear Hd | congruence]);
    destruct ev as [buffer e | rc out e]; unfold_methods; cbn.
  all: run_cases.
  all: try reflexivity.
  all: cbn; repeat split; try congruence; eauto.
Qed.

Lemma gtk_dialog_run_session evs : forall s,
  session_inv s ->
  match gtk_dialog_run evs s with
  | Ok _ s' => session_inv s' /\ calls (world s') = calls (world s)
  | Crash f => f = NullPointer
  end.
Proof.
  induction evs as [|ev evs IH]; intros s Hs.
  - cbn. auto.
  - cbn [gtk_dialog_run]. unfold bind.
    pose proof (dispatch_session ev s Hs) as Hev.
    destruct (dispatch ev s) as [[] s1|f]; [|exact Hev].
    destruct Hev as [Hs1 Hc1].
    specialize (IH s1 Hs1).
    destruct (gtk_dialog_run evs s1) as [[] s2|f]; [|exact IH].
    destruct IH as [Hs2 Hc2]. split; [exact Hs2 | congruence].
Qed.

(** Every [setUpdating] leaves the button following the validity flag, and
    the flag only changes right before one: an event keeps the button
    following it. *)
Lemma dispatch_button ev s :
  session_inv s ->
  button_follows_validity s ->
  match dispatch ev s with
  | Ok _ s' => button_follows_validity s'
  | Crash _ => True
  end.
Proof.
  destruct_state s. unfold session_inv, button_follows_validity. cbn.
  intros [_ [[Hu Hw] | [Hu [pid Hw]]]] [[ok label preview] [Hd Hok]];
    cbn in Hok; subst;
    destruct ev as [buffer e | rc out e]; unfold_methods; cbn.
  all: run_goal.
  all: try exact I.
  all: eexists; split; reflexivity.
Qed.

Lemma gtk_dialog_run_button evs : forall s,
  session_inv s ->
  button_follows_validity s ->
  match gtk_dialog_run evs s with
  | Ok _ s' => button_follows_validity s'
  | Crash _ => True
  end.
Proof.
  induction evs as [|ev evs IH]; intros s Hs Hb.
  - exact Hb.
  - cbn [gtk_dialog_run]. unfold bind.
    pose proof (dispatch_session ev s Hs) as Hev.
    pose proof (dispatch_button ev s Hs Hb) as Hbt.
    destruct (dispatch ev s) as [[] s1|f]; [|exact I].
    destruct Hev as [Hs1 _]. exact (IH s1 Hs1 Hbt).
Qed.

(** In a session that starts with nothing in flight and the OK button
    following the validity flag, the button follows that flag after any
    events, whether a render is in flight or not: it is insensitive exactly
    while the formula counts as invalid. *)
Theorem ok_button_is_validity (s0 : State) (evs : list Event) (s : State) :
  button_follows_validity s0 ->
  isUpdating (self s0) = false ->
  watches (world s0) = [] ->
  gtk_dialog_run evs s0 = Ok tt s ->
  button_follows_validity s.
Proof.
  intros Hb Hu Hw Hrun.
  assert (Hs0 : session_inv s0).
  { destruct Hb as [d [Hd _]]. unfold session_inv. rewrite Hd.
    split; [discriminate | left; split; assumption]. }
  pose proof (gtk_dialog_run_button evs s0 Hs0 Hb) as H.
  rewrite Hrun in H. exact H.
Qed.

(** An edit that arrives while a render is in flight is only recorded. *)
Lemma handleTexChanged_in_flight buffer e s :
  isUpdating (self s) = true ->
  handleTexChanged buffer e s = Ok tt (on_self (set_currentTex buffer) s).
Proof.
  intros Hu. unfold handleTexChanged, setCurrentTex, triggerImageUpdate,
    bind, assign, this_, ret.
  cbn. rewrite Hu. reflexivity.
Qed.

(** C1. Single-flight.  From a session in which nothing is in flight, after
    any sequence of edits and child exits: at most one child is watched, and
    one is watched exactly when [isUpdating] is set; an edit that arrives
    while [isUpdating] is set starts nothing (no invocation, no new watch);
    and no next event trips an assertion, in particular not the
    [g_assert(!isUpdating)] with which [runCommandAsync] starts, so every
    invocation starts with the flag cleared. *)
Theorem single_flight (s0 : State) (evs : list Event) (s : State) :
  dlg (self s0) <> None ->
  isUpdating (self s0) = false ->
  watches (world s0) = [] ->
  gtk_dialog_run evs s0 = Ok tt s ->
  (length (watches (world s)) <= 1)%nat /\
  (isUpdating (self s) = true <-> length (watches (world s)) = 1%nat) /\
  (forall buffer e,
      isUpdating (self s) = true ->
      exists s', dispatch (TexChanged buffer e) s = Ok tt s' /\
                 watches (world s') = watches (world s) /\
                 invocations (world s') = invocations (world s)) /\
  (forall ev, dispatch ev s <> Crash AssertionFailed).
Proof.
  intros Hd Hu Hw Hrun.
  assert (Hs0 : session_inv s0) by (unfold session_inv; auto).
  pose proof (gtk_dialog_run_session evs s0 Hs0) as Hs.
  rewrite Hrun in Hs. destruct Hs as [Hs _].
  repeat split.
  - destruct Hs as [_ [[_ Hws] | [_ [pid Hws]]]]; rewrite Hws; cbn; lia.
  - intros Hup.
    destruct Hs as [_ [[Hf _] | [_ [pid Hws]]]]; [congruence|].
    rewrite Hws. reflexivity.
  - intros Hlen.
    destruct Hs as [_ [[_ Hws] | [Ht _]]]; [|exact Ht].
    rewrite Hws in Hlen. discriminate.
  - intros buffer e Hup. eexists. split.
    + cbn [dispatch]. apply handleTexChanged_in_flight. exact Hup.
    + split; reflexivity.
  - intros ev Hcrash.
    pose proof (dispatch_session ev s Hs) as Hev.
    rewrite Hcrash in Hev. discriminate.
Qed.

Lemma single_flight_witness :
  exists s,
    gtk_dialog_run [TexChanged "a" (okEnv 7); TexChanged "ab" (okEnv 8);
                    ChildExited 0 one_page_pdf (okEnv 9)] session_start = Ok tt s /\
    (length (watches (world s)) <= 1)%nat /\
    (isUpdating (self s) = true <-> length (watches (world s)) = 1%nat).
Proof.
  eexists. split; [vm_compute; reflexivity|].
  refine (let H := single_flight session_start
    [TexChanged "a" (okEnv 7); TexChanged "ab" (okEnv 8);
     ChildExited 0 one_page_pdf (okEnv 9)] _ _ _ _ _ in
    conj (proj1 H) (proj1 (proj2 H))).
  - discriminate.
  - reflexivity.
  - reflexivity.
  - vm_compute. reflexivity.
Defined.

(** ** Completion of a render *)

Lemma last_cons {A} (l : list A) : forall a d, last (a :: l) d = last l a.
Proof.
  induction l as [|b l IH]; intros a d; [reflexivity|].
  change (last (a :: b :: l) d) with (last (b :: l) d).
  rewrite (IH b d), (IH b a). reflexivity.
Qed.

Lemma typed_cons t texts s :
  typed (t :: texts) s = on_self (set_currentTex (last texts t)) s.
Proof.
  revert t s. induction texts as [|u texts IH]; intros t s.
  - reflexivity.
  - change (typed (t :: u :: texts) s)
      with (typed (u :: texts) (on_self (set_currentTex t) s)).
    rewrite IH, last_cons. reflexivity.
Qed.

Lemma edits_in_flight edits : forall s,
  isUpdating (self s) = true ->
  gtk_dialog_run (map edit edits) s = Ok tt (typed (map fst edits) s).
Proof.
  induction edits as [|[t e] edits IH]; intros s Hu; [reflexivity|].
  cbn [map gtk_dialog_run edit fst snd dispatch]. unfold bind.
  rewrite (handleTexChanged_in_flight t e s Hu).
  rewrite IH by exact Hu. reflexivity.
Qed.

(** What a completion does about a follow-up render, from any state in
    which a preview render is in flight. *)
Lemma completion_retrigger s pid rc out e :
  dlg (self s) <> None ->
  isUpdating (self s) = true ->
  watches (world s) = [(pid, true)] ->
  blank_success rc out = false ->
  exists s',
    dispatch (ChildExited rc out e) s = Ok tt s' /\
    (lastPreviewedTex (self s) <> currentTex (self s) ->
       invocations (world s') =
         invocations (world s) ++ [texContents (currentTex (self s))] /\
       (write_ok e = true -> forall p, spawn e = Some p ->
          watches (world s') = [(p, true)] /\
          isUpdating (self s') = true /\
          lastPreviewedTex (self s') = currentTex (self s))) /\
    (lastPreviewedTex (self s) = currentTex (self s) ->
       invocations (world s') = invocations (world s) /\
       watches (world s') = [] /\
       isUpdating (self s') = false).
Proof.
  destruct_state s. cbn. intros Hd -> ->.
  destruct dl as [d|]; [clear Hd | congruence].
  unfold blank_success, has_no_page. unfold_methods. cbn.
  run_goal.
  all: intros Hblank; try discriminate Hblank; eqb_hyps.
  all: eexists; (split; [reflexivity|]); cbn; split; intros Hcmp;
    try congruence.
  all: repeat split; try reflexivity; try congruence.
  all: intros; repeat split; congruence.
Qed.

(** C2. Staleness re-trigger.  A render for [T1] is in flight and the input
    is [T1]; the user types [edits]; the child ends (not the blank success
    on which the loader aborts).  With [T2] the input at completion: the
    edits were only recorded, and if [T2] differs from [T1] the completion
    makes exactly one more invocation, for [T2] (and when tex.tex can be
    written and the child spawns, that child is the one watched, with
    [lastPreviewedTex] now [T2]); if [T2] is [T1], in particular if nothing
    was typed, it makes none and nothing is in flight afterwards. *)
Theorem staleness_retrigger (s : State) (pid : GPid)
  (edits : list (string * Env)) (rc : Z) (out : FileState) (e : Env) :
  dlg (self s) <> None ->
  isUpdating (self s) = true ->
  watches (world s) = [(pid, true)] ->
  currentTex (self s) = lastPreviewedTex (self s) ->
  blank_success rc out = false ->
  let T1 := lastPreviewedTex (self s) in
  let T2 := last (map fst edits) T1 in
  exists s2 s3,
    gtk_dialog_run (map edit edits) s = Ok tt s2 /\
    dispatch (ChildExited rc out e) s2 = Ok tt s3 /\
    (T2 <> T1 ->
       invocations (world s3) = invocations (world s) ++ [texContents T2] /\
       (write_ok e = true -> forall p, spawn e = Some p ->
          watches (world s3) = [(p, true)] /\
          isUpdating (self s3) = true /\
          lastPreviewedTex (self s3) = T2)) /\
    (T2 = T1 ->
       invocations (world s3) = invocations (world s) /\
       watches (world s3) = [] /\
       isUpdating (self s3) = false).
Proof.
  intros Hd Hu Hw Hcur Hblank T1 T2.
  exists (typed (map fst edits) s).
  pose proof (edits_in_flight edits s Hu) as Hedits.
  destruct edits as [|[t e0] edits].
  - destruct (completion_retrigger s pid rc out e Hd Hu Hw Hblank)
      as [s3 [Hrun [Hne Heq]]].
    exists s3. split; [exact Hedits|]. split; [exact Hrun|].
    subst T1 T2. cbn [map last]. split.
    + intros HT. exfalso. apply HT. reflexivity.
    + intros _. apply Heq. symmetry. exact Hcur.
  - subst T2. cbn [map fst] in *. rewrite last_cons.
    rewrite typed_cons in *.
    set (T2 := last (map fst edits) t) in *.
    destruct (completion_retrigger (on_self (set_currentTex T2) s) pid rc out e)
      as [s3 [Hrun [Hne Heq]]]; try assumption.
    exists s3. split; [exact Hedits|]. split; [exact Hrun|].
    cbn in Hne, Heq. subst T1. split.
    + intros HT. apply Hne. congruence.
    + intros HT. apply Heq. congruence.
Qed.

Lemma staleness_retrigger_witness :
  exists s2 s3,
    gtk_dialog_run (map edit [("ab", okEnv 8); ("abc", okEnv 9)]) rendering_a
      = Ok tt s2 /\
    dispatch (ChildExited 0 one_page_pdf (okEnv 10)) s2 = Ok tt s3 /\
    ("abc" <> "a" ->
       invocations (world s3) =
         invocations (world rendering_a) ++ [texContents "abc"] /\
       (write_ok (okEnv 10) = true -> forall p, spawn (okEnv 10) = Some p ->
          watches (world s3) = [(p, true)] /\
          isUpdating (self s3) = true /\
          lastPreviewedTex (self s3) = "abc")) /\
    ("abc" = "a" ->
       invocations (world s3) = invocations (world rendering_a) /\
       watches (world s3) = [] /\
       isUpdating (self s3) = false).
Proof.
  apply (staleness_retrigger rendering_a 7
           [("ab", okEnv 8); ("abc", okEnv 9)] 0 one_page_pdf (okEnv 10)).
  - vm_compute. discriminate.
  - vm_compute. reflexivity.
  - vm_compute. reflexivity.
  - vm_compute. reflexivity.
  - vm_compute. reflexivity.
Defined.

(** A child that exits normally with code 1: the error [pdflatex] reports
    for a formula it cannot typeset (or that the template finds blank). *)
Lemma exit_status_1 rc :
  WIFEXITED rc = true -> WEXITSTATUS rc = 1%Z ->
  g_spawn_check_exit_status rc =
    Some {| domain := G_SPAWN_EXIT_ERROR; code := 1 |}.
Proof.
  intros Hex Hst. unfold g_spawn_check_exit_status.
  rewrite Hex, Hst. reflexivity.
Qed.

Lemma not_exists_missing f : exists_ f = false -> f = FileMissing.
Proof. destruct f; [reflexivity | discriminate | discriminate]. Qed.

(** C6. RenderError.  A preview render is in flight and its child exits
    normally with code 1.  The completion runs to its end; the formula is
    marked invalid; the OK button is insensitive and the label says so;
    tex.pdf is gone; no "pdflatex encountered an error" dialog is shown for
    this completion; and when the input was not edited meanwhile no dialog
    at all is shown and nothing is in flight afterwards. *)
Theorem render_error_marks_invalid (s : State) (pid : GPid) (rc : Z)
  (out : FileState) (e : Env) :
  dlg (self s) <> None ->
  isUpdating (self s) = true ->
  watches (world s) = [(pid, true)] ->
  WIFEXITED rc = true ->
  WEXITSTATUS rc = 1%Z ->
  exists s' d',
    dispatch (ChildExited rc out e) s = Ok tt s' /\
    isValidTex (self s') = false /\
    dlg (self s') = Some d' /\
    okSensitive d' = false /\
    errorLabel d' = invalid_label /\
    pdfFile (world s') = FileMissing /\
    (forall c, In (MsgPdflatexError c) (messages (world s')) ->
               In (MsgPdflatexError c) (messages (world s))) /\
    (lastPreviewedTex (self s) = currentTex (self s) ->
       messages (world s') = messages (world s) /\
       isUpdating (self s') = false /\
       watches (world s') = []).
Proof.
  intros Hd Hu Hw Hex Hst.
  pose proof (exit_status_1 rc Hex Hst) as Hrc. clear Hex Hst.
  destruct_state s. cbn in Hd, Hu, Hw. subst.
  destruct dl as [d|]; [clear Hd | congruence].
  unfold_methods. cbn. rewrite Hrc. cbn.
  change (g_error_matches {| domain := G_SPAWN_EXIT_ERROR; code := 1 |}
            G_SPAWN_EXIT_ERROR 1) with true.
  cbn. run_goal.
  all: eqb_hyps.
  all: do 2 eexists; (split; [reflexivity|]); cbn.
  all: repeat split; try reflexivity; try congruence.
  all: try (apply not_exists_missing; assumption).
  all: intros c Hin; apply in_app_or in Hin; destruct Hin as [Hin|Hin];
    [exact Hin | cbn in Hin; destruct Hin as [Hin|[]]; discriminate Hin].
Qed.

Lemma render_error_marks_invalid_witness :
  exists s' d',
    dispatch (ChildExited (W_EXITCODE 1) one_page_pdf (okEnv 10)) rendering_ab
      = Ok tt s' /\
    isValidTex (self s') = false /\
    dlg (self s') = Some d' /\
    okSensitive d' = false /\
    errorLabel d' = invalid_label /\
    pdfFile (world s') = FileMissing /\
    (forall c, In (MsgPdflatexError c) (messages (world s')) ->
               In (MsgPdflatexError c) (messages (world rendering_ab))) /\
    (lastPreviewedTex (self rendering_ab) = currentTex (self rendering_ab) ->
       messages (world s') = messages (world rendering_ab) /\
       isUpdating (self s') = false /\
       watches (world s') = []).
Proof.
  apply (render_error_marks_invalid rendering_ab 9 (W_EXITCODE 1)
           one_page_pdf (okEnv 10)).
  - vm_compute. discriminate.
  - vm_compute. reflexivity.
  - vm_compute. reflexivity.
  - vm_compute. reflexivity.
  - vm_compute. reflexivity.
Defined.

(** C5, as the code has it.  A preview render is in flight and its child
    ends with an error other than exit code 1.  The completion runs to its
    end; a "pdflatex encountered an error" dialog is shown; tex.pdf is
    gone; the formula is marked invalid all the same, and the OK button is
    insensitive; and when the input was not edited meanwhile nothing is in
    flight afterwards. *)
Theorem tool_failure_reported (s : State) (pid : GPid) (rc : Z)
  (out : FileState) (e : Env) (er : GError) :
  dlg (self s) <> None ->
  isUpdating (self s) = true ->
  watches (world s) = [(pid, true)] ->
  g_spawn_check_exit_status rc = Some er ->
  g_error_matches er G_SPAWN_EXIT_ERROR 1 = false ->
  exists s' d' later,
    dispatch (ChildExited rc out e) s = Ok tt s' /\
    messages (world s') =
      messages (world s) ++ MsgPdflatexError (code er) :: later /\
    pdfFile (world s') = FileMissing /\
    isValidTex (self s') = false /\
    dlg (self s') = Some d' /\
    okSensitive d' = false /\
    errorLabel d' = invalid_label /\
    (lastPreviewedTex (self s) = currentTex (self s) ->
       later = [] /\
       isUpdating (self s') = false /\
       watches (world s') = []).
Proof.
  intros Hd Hu Hw Hrc Hm.
  destruct_state s. cbn in Hd, Hu, Hw. subst.
  destruct dl as [d|]; [clear Hd | congruence].
  unfold_methods. cbn. rewrite Hrc. cbn. rewrite Hm. cbn.
  run_goal.
  all: eqb_hyps.
  all: do 3 eexists; (split; [reflexivity|]); cbn.
  all: rewrite <- ?app_assoc; cbn.
  all: repeat split; try reflexivity; try congruence.
  all: apply not_exists_missing; assumption.
Qed.

Lemma tool_failure_reported_witness :
  exists s' d' later,
    dispatch (ChildExited (W_EXITCODE 2) one_page_pdf (okEnv 10)) rendering_ab
      = Ok tt s' /\
    messages (world s') =
      messages (world rendering_ab) ++ MsgPdflatexError 2 :: later /\
    pdfFile (world s') = FileMissing /\
    isValidTex (self s') = false /\
    dlg (self s') = Some d' /\
    okSensitive d' = false /\
    errorLabel d' = invalid_label /\
    (lastPreviewedTex (self rendering_ab) = currentTex (self rendering_ab) ->
       later = [] /\
       isUpdating (self s') = false /\
       watches (world s') = []).
Proof.
  apply (tool_failure_reported rendering_ab 9 (W_EXITCODE 2) one_page_pdf
           (okEnv 10) {| domain := G_SPAWN_EXIT_ERROR; code := 2 |}).
  - vm_compute. discriminate.
  - vm_compute. reflexivity.
  - vm_compute. reflexivity.
  - vm_compute. reflexivity.
  - vm_compute. reflexivity.
Defined.

(** C5 as stated fails: the formula was valid while "ab" was rendering;
    its child exits with code 2, which is not the code reserved for a bad
    formula; the completion leaves the formula marked invalid. *)
Lemma tool_failure_sets_invalid :
  isValidTex (self rendering_ab) = true /\
  g_spawn_check_exit_status (W_EXITCODE 2) =
    Some {| domain := G_SPAWN_EXIT_ERROR; code := 2 |} /\
  g_error_matches {| domain := G_SPAWN_EXIT_ERROR; code := 2 |}
    G_SPAWN_EXIT_ERROR 1 = false /\
  exists s',
    dispatch (ChildExited (W_EXITCODE 2) one_page_pdf (okEnv 10)) rendering_ab
      = Ok tt s' /\
    isValidTex (self s') = false.
Proof.
  split; [vm_compute; reflexivity|].
  split; [vm_compute; reflexivity|].
  split; [vm_compute; reflexivity|].
  eexists. split; [vm_compute; reflexivity|]. reflexivity.
Qed.

(** Whatever [newValue] is, [setUpdating] leaves the OK button as sensitive
    as the formula is valid: the second [gtk_widget_set_sensitive] overrides
    the first. *)
Lemma setUpdating_button (newValue : bool) (s : State) (d : LatexDialog) :
  dlg (self s) = Some d ->
  exists s' d',
    setUpdating newValue s = Ok tt s' /\
    isUpdating (self s') = newValue /\
    dlg (self s') = Some d' /\
    okSensitive d' = isValidTex (self s).
Proof.
  destruct_state s. cbn. intros ->.
  unfold_methods. cbn. run_goal.
  all: do 2 eexists; repeat split; reflexivity.
Qed.

(** C4 fails on the code.  After a first successful render the formula is
    valid; the next edit starts a render through [setUpdating(true)]; that
    render is in flight, its child is watched, and the OK button is
    sensitive. *)
Theorem ok_button_sensitive_while_updating :
  exists d,
    isUpdating (self rendering_ab) = true /\
    watches (world rendering_ab) = [(9%Z, true)] /\
    isValidTex (self rendering_ab) = true /\
    dlg (self rendering_ab) = Some d /\
    okSensitive d = true.
Proof.
  eexists.
  split; [vm_compute; reflexivity|].
  split; [vm_compute; reflexivity|].
  split; [vm_compute; reflexivity|].
  split; [vm_compute; reflexivity|].
  reflexivity.
Qed.

(** C8, as the code has it.  A preview render is in flight; its child exits
    with status 0 and leaves a PDF that poppler parses, with a first page.
    The completion runs to its end with the formula valid and a preview
    asset that holds the file's bytes and whose text is the input at
    completion; when the input was not edited meanwhile that is the text
    the render was started for, and nothing is in flight afterwards. *)
Theorem preview_asset_text (s : State) (pid : GPid) (rc : Z)
  (contents : string) (W Hp : float) (more : PopplerDocument) (e : Env) :
  dlg (self s) <> None ->
  isUpdating (self s) = true ->
  watches (world s) = [(pid, true)] ->
  g_spawn_check_exit_status rc = None ->
  exists s' img,
    dispatch (ChildExited rc (FileData contents (PopplerOk ((W, Hp) :: more))) e) s
      = Ok tt s' /\
    isValidTex (self s') = true /\
    temporaryRender (self s') = Some img /\
    img_binaryData img = contents /\
    img_text img = currentTex (self s) /\
    (lastPreviewedTex (self s) = currentTex (self s) ->
       img_text img = lastPreviewedTex (self s) /\
       isUpdating (self s') = false /\
       watches (world s') = []).
Proof.
  intros Hd Hu Hw Hrc.
  destruct_state s. cbn in Hd, Hu, Hw. subst.
  destruct dl as [d|]; [clear Hd | congruence].
  unfold_methods. unfold convertDocumentToImage, setBinaryData.
  cbn. rewrite Hrc. cbn.
  run_goal.
  all: eqb_hyps.
  all: do 2 eexists; (split; [reflexivity|]); cbn.
  all: repeat split; try reflexivity; try congruence.
  all: cbn; congruence.
Qed.

Lemma preview_asset_text_witness :
  exists s' img,
    dispatch (ChildExited 0 (FileData "%PDF-1.5" (PopplerOk [(30%float, 12%float)]))
                (okEnv 8)) rendering_a = Ok tt s' /\
    isValidTex (self s') = true /\
    temporaryRender (self s') = Some img /\
    img_binaryData img = "%PDF-1.5" /\
    img_text img = currentTex (self rendering_a) /\
    (lastPreviewedTex (self rendering_a) = currentTex (self rendering_a) ->
       img_text img = lastPreviewedTex (self rendering_a) /\
       isUpdating (self s') = false /\
       watches (world s') = []).
Proof.
  apply (preview_asset_text rendering_a 7 0 "%PDF-1.5" 30 12 [] (okEnv 8)).
  - vm_compute. discriminate.
  - vm_compute. reflexivity.
  - vm_compute. reflexivity.
  - vm_compute. reflexivity.
Defined.

(** C8 as stated fails: the render in flight was started for "a" (the one
    invocation so far, and [lastPreviewedTex]); the user types "ab" before
    its child exits with status 0 and a one-page PDF; the preview asset
    built from that PDF carries the text "ab". *)
Lemma preview_asset_text_is_current :
  exists s s' img,
    gtk_dialog_run [TexChanged "a" (okEnv 7); TexChanged "ab" (okEnv 8)]
      session_start = Ok tt s /\
    invocations (world s) = [texContents "a"] /\
    lastPreviewedTex (self s) = "a" /\
    dispatch (ChildExited 0 one_page_pdf (okEnv 9)) s = Ok tt s' /\
    temporaryRender (self s') = Some img /\
    img_text img = "ab".
Proof.
  do 3 eexists.
  split; [vm_compute; reflexivity|].
  split; [vm_compute; reflexivity|].
  split; [reflexivity|].
  split; [vm_compute; reflexivity|].
  split; reflexivity.
Qed.

(** ** The size of the asset *)

(** A height above zero is one that [if (imgheight)] takes for true. *)
Lemma positive_height_nonzero (h : float) :
  PrimFloat.ltb 0 h = true -> is_zero h = false.
Proof.
  unfold is_zero. rewrite FloatAxioms.ltb_spec, FloatAxioms.eqb_spec.
  change (Prim2SF 0) with (S754_zero false).
  destruct (Prim2SF h) as [sg | sg | | sg m ex]; cbn;
    try reflexivity; try discriminate.
  all: destruct sg; cbn; try reflexivity; try discriminate.
Qed.

(** C7, as the code has it.  A document with a first page of [W] by [Hp]
    always gives an asset, at the selection's position and with the current
    text.  With a prior height that is not zero the asset keeps that height,
    and its width is the height times [W / Hp] unless that ratio compares
    equal to zero; then the width is the prior width, or 10 when the prior
    width is zero.  With a prior height of zero the asset is [W] by [Hp]. *)
Theorem convertDocumentToImage_size (c : LatexController) (W Hp : float)
  (more : PopplerDocument) :
  exists img,
    convertDocumentToImage c ((W, Hp) :: more) = Some img /\
    img_x img = posx c /\ img_y img = posy c /\ img_text img = currentTex c /\
    (is_zero (imgheight c) = false ->
       img_height img = imgheight c /\
       (is_zero (W / Hp) = false ->
          img_width img = (imgheight c * (W / Hp))%float) /\
       (is_zero (W / Hp) = true -> is_zero (imgwidth c) = false ->
          img_width img = imgwidth c) /\
       (is_zero (W / Hp) = true -> is_zero (imgwidth c) = true ->
          img_width img = 10%float)) /\
    (is_zero (imgheight c) = true ->
       img_width img = W /\ img_height img = Hp).
Proof.
  unfold convertDocumentToImage.
  destruct (is_zero (imgheight c)) eqn:Hh;
    destruct (is_zero (W / Hp)) eqn:Hr;
    destruct (is_zero (imgwidth c)) eqn:Hw;
    cbn; eexists; (split; [reflexivity|]); cbn;
    repeat split; intros; try reflexivity; discriminate.
Qed.

(** C7 as stated fails at a page height of zero: the ratio [30 / 0] is
    infinite, it does not compare equal to zero, and the width is
    [5 * infinity], not the prior width 7. *)
Lemma zero_page_height_no_fallback :
  PrimFloat.ltb 0 (imgheight resized_7_by_5) = true /\
  is_zero 0 = true /\
  exists img,
    convertDocumentToImage resized_7_by_5 [(30%float, 0%float)] = Some img /\
    img_height img = 5%float /\
    img_width img = infinity /\
    PrimFloat.eqb (img_width img) (imgwidth resized_7_by_5) = false.
Proof.
  split; [reflexivity|]. split; [reflexivity|].
  eexists. split; [vm_compute; reflexivity|].
  split; [reflexivity|]. split; reflexivity.
Qed.

(** Where the fallback does apply: a page width of zero. *)
Example zero_page_width_falls_back :
  exists img,
    convertDocumentToImage resized_7_by_5 [(0%float, 12%float)] = Some img /\
    img_width img = 7%float /\ img_height img = 5%float.
Proof.
  eexists. split; [vm_compute; reflexivity|]. split; reflexivity.
Qed.

(** ** Commit *)

(** The commit with nothing to load.  When tex.pdf is missing, unreadable
    or unparsable, [insertTexImage] goes on with the null [loadRendered]
    answers: it removes the element selected before, hands the null pointer
    to [Layer::addElement] and [rerenderElement], pushes an
    [InsertUndoAction] for it and selects it. *)
Theorem insertTexImage_null (s : State) (l : Layer) (v : XojPageView) :
  load_fails (pdfFile (world s)) = true ->
  layer (self s) = Some l ->
  view (self s) = Some v ->
  exists s',
    insertTexImage s = Ok tt s' /\
    calls (world s') =
      calls (world s) ++ deletion_of_selected (self s) v ++
      [Doc_lock; Layer_addElement l None; View_rerenderElement v None;
       Doc_unlock; Undo_addInsertUndoAction (page (self s)) l None;
       Xournal_setSelection v None (page (self s))].
Proof.
  intros Hload Hl Hv. revert Hload.
  destruct_state s. cbn in Hl, Hv. subst.
  unfold load_fails, deletion_of_selected. unfold_methods. cbn.
  run_goal.
  all: intros Hload; try discriminate Hload.
  all: eexists; (split; [reflexivity|]); cbn.
  all: rewrite <- ?app_assoc; reflexivity.
Qed.

Lemma insertTexImage_null_witness :
  exists s',
    insertTexImage (committing FileMissing "y ") = Ok tt s' /\
    calls (world s') =
      calls (world (committing FileMissing "y ")) ++
      deletion_of_selected (self (committing FileMissing "y ")) 2%nat ++
      [Doc_lock; Layer_addElement 3%nat None; View_rerenderElement 2%nat None;
       Doc_unlock;
       Undo_addInsertUndoAction (page (self (committing FileMissing "y "))) 3%nat None;
       Xournal_setSelection 2%nat None (page (self (committing FileMissing "y ")))].
Proof.
  apply (insertTexImage_null (committing FileMissing "y ") 3%nat 2%nat).
  - reflexivity.
  - reflexivity.
  - reflexivity.
Defined.

(** C9. The commit is to go on with a null asset when nothing could be
    loaded, and for a PDF without pages it does not: [loadRendered] returns
    null on each of its other failure paths, and [convertDocumentToImage]
    answers null for a document without pages, but [loadRendered] then
    calls [setBinaryData] through that null pointer before it can return
    it, and the commit aborts there with no call made on the document. *)
Lemma zero_page_pdf_aborts_commit :
  has_no_page (FileData "%PDF-1.5" (PopplerOk [])) = true /\
  convertDocumentToImage
    (self (committing (FileData "%PDF-1.5" (PopplerOk [])) "y ")) [] = None /\
  loadRendered (committing (FileData "%PDF-1.5" (PopplerOk [])) "y ")
    = Crash NullPointer /\
  insertTexImage (committing (FileData "%PDF-1.5" (PopplerOk [])) "y ")
    = Crash NullPointer.
Proof.
  split; [reflexivity|]. split; [reflexivity|].
  split; vm_compute; reflexivity.
Qed.

(** ** The initial input *)

(** C10, as the code has it.  When there is a current page and it has a
    view, [findSelectedTexElement] on a new controller (its [initalTex]
    still empty) leaves an initial text that is not empty and is also the
    current text: "x^2" when neither a formula nor a text is selected, the
    formula's text (or "x^2" when that is empty) when a formula is
    selected, and the text wrapped in [\text{...}] when a text is. *)
Theorem initial_tex_default (ctl : Control) (s : State) (v : XojPageView) :
  currentPageNo ctl <> (-1)%Z ->
  viewFor ctl = Some v ->
  initalTex (self s) = "" ->
  exists s',
    findSelectedTexElement ctl s = Ok tt s' /\
    initalTex (self s') <> "" /\
    currentTex (self s') = initalTex (self s') /\
    (selectedTex ctl = None -> selectedTxt ctl = None ->
       initalTex (self s') = "x^2") /\
    (forall t, selectedTex ctl = Some t ->
       initalTex (self s') =
         if String.eqb (img_text t) "" then "x^2" else img_text t) /\
    (forall t, selectedTex ctl = None -> selectedTxt ctl = Some t ->
       initalTex (self s') = ("\text{" ++ txt_text t ++ "}")%string).
Proof.
  intros Hpage Hview Hini.
  apply Z.eqb_neq in Hpage.
  unfold findSelectedTexElement. rewrite Hpage, Hview.
  destruct_state s. cbn in Hini. subst iT.
  destruct (selectedTex ctl) as [[x y w h txt bin]|] eqn:Htex;
    [destruct txt as [|a txt]
    | destruct (selectedTxt ctl) as [[txt w h]|] eqn:Htxt].
  all: eexists; (split; [vm_compute; reflexivity|]).
  all: split; [cbn; discriminate|].
  all: split; [reflexivity|].
  all: split; [intros; try discriminate; reflexivity|].
  all: split; intros t Ht; try discriminate.
  all: try (intros Ht'; try discriminate; injection Ht' as <-).
  all: try (injection Ht as <-).
  all: vm_compute; reflexivity.
Qed.

Lemma initial_tex_default_witness :
  exists s',
    findSelectedTexElement text_selected new_session = Ok tt s' /\
    initalTex (self s') <> "" /\
    currentTex (self s') = initalTex (self s') /\
    (selectedTex text_selected = None -> selectedTxt text_selected = None ->
       initalTex (self s') = "x^2") /\
    (forall t, selectedTex text_selected = Some t ->
       initalTex (self s') =
         if String.eqb (img_text t) "" then "x^2" else img_text t) /\
    (forall t, selectedTex text_selected = None ->
       selectedTxt text_selected = Some t ->
       initalTex (self s') = ("\text{" ++ txt_text t ++ "}")%string).
Proof.
  apply (initial_tex_default text_selected new_session 2%nat).
  - cbn. discriminate.
  - reflexivity.
  - reflexivity.
Defined.

(** C10 as stated fails in a session without a current page:
    [findSelectedTexElement] returns before it touches [initalTex], which
    stays empty. *)
Lemma no_current_page_empty_initial_tex :
  currentPageNo no_current_page = (-1)%Z /\
  exists s',
    findSelectedTexElement no_current_page new_session = Ok tt s' /\
    initalTex (self s') = "" /\
    currentTex (self s') = "".
Proof.
  split; [reflexivity|].
  eexists. split; [vm_compute; reflexivity|]. split; reflexivity.
Qed.

(** ** The no-op guard *)

Lemma frame_refl s : frame s s.
Proof. repeat split. Qed.

Lemma frame_trans s1 s2 s3 : frame s1 s2 -> frame s2 s3 -> frame s1 s3.
Proof.
  intros [Hm [Hu Hw]] [Hm' [Hu' Hw']]. repeat split; congruence.
Qed.

Lemma quiet_ret {A} (a : A) : quiet (ret a).
Proof. intros s. apply frame_refl. Qed.

Lemma quiet_bind {A B} (m : M A) (k : A -> M B) :
  quiet m -> (forall a, quiet (k a)) -> quiet (bind m k).
Proof.
  intros Hm Hk s. unfold bind. specialize (Hm s).
  destruct (m s) as [a s1|f]; [|exact I].
  specialize (Hk a s1). destruct (k a s1) as [b s2|f]; [|exact I].
  eapply frame_trans; eassumption.
Qed.

Lemma quiet_assign (f : LatexController -> LatexController) :
  (forall c, isUpdating (f c) = isUpdating c) -> quiet (assign f).
Proof.
  intros Hf s. unfold assign, frame, mutations. cbn.
  repeat split. apply Hf.
Qed.

Lemma quiet_this {A} (f : LatexController -> A) : quiet (this_ f).
Proof. intros s. apply frame_refl. Qed.

Lemma quiet_call (c : DocCall) : mutation c = false -> quiet (call c).
Proof.
  intros Hc s. unfold call, outside, frame, mutations. cbn.
  rewrite filter_app. cbn. rewrite Hc, app_nil_r. repeat split.
Qed.

Lemma quiet_showErrorToUser (m : Msg) : quiet (showErrorToUser m).
Proof. intros s. repeat split. Qed.

Lemma quiet_when (b : bool) (m : M unit) : quiet m -> quiet (when b m).
Proof. intros Hm. destruct b; [exact Hm | apply quiet_ret]. Qed.

Create HintDb quiet.
#[local] Hint Resolve quiet_ret quiet_this quiet_showErrorToUser : quiet.

Lemma findTexExecutable_quiet (pdflatex : option string) :
  quiet (findTexExecutable pdflatex).
Proof.
  unfold findTexExecutable. destruct pdflatex;
  repeat first
    [ apply quiet_bind; [|intros ?]
    | apply quiet_when
    | apply quiet_assign; intros ?; reflexivity
    | apply quiet_call; reflexivity
    | solve [auto with quiet] ].
Qed.

Lemma findSelectedTexElement_quiet (ctl : Control) :
  quiet (findSelectedTexElement ctl).
Proof.
  unfold findSelectedTexElement.
  destruct (Z.eqb (currentPageNo ctl) (-1)), (viewFor ctl),
    (selectedTex ctl), (selectedTxt ctl);
  repeat first
    [ apply quiet_bind; [|intros ?]
    | apply quiet_when
    | apply quiet_assign; intros ?; reflexivity
    | apply quiet_call; reflexivity
    | solve [auto with quiet] ].
Qed.

(** Taking a sequence apart. *)
Lemma bind_ok {A B} (m : M A) (k : A -> M B) (s s2 : State) (b : B) :
  bind m k s = Ok b s2 ->
  exists a s1, m s = Ok a s1 /\ k a s1 = Ok b s2.
Proof.
  unfold bind. destruct (m s) as [a s1|f]; [|discriminate].
  intros H. exists a, s1. split; [reflexivity | exact H].
Qed.

Lemma Ok_inj {A} (a a' : A) (s s' : State) :
  Ok a s = Ok a' s' -> a = a' /\ s = s'.
Proof. intros H. injection H as -> ->. split; reflexivity. Qed.

(** While the dialog is shown nothing is called on the document; when it
    is closed the current text is the dialog's text and a space. *)
Lemma showTexEditDialog_calls fresh evs dlgTex s s' :
  isUpdating (self s) = false ->
  watches (world s) = [] ->
  showTexEditDialog fresh evs dlgTex s = Ok tt s' ->
  calls (world s') = calls (world s) /\
  currentTex (self s') = (dlgTex ++ " ")%string.
Proof.
  intros Hu Hw H. unfold showTexEditDialog in H.
  apply bind_ok in H as (u1 & s1 & H1 & H).
  apply bind_ok in H as (r & s2 & H2 & H).
  apply bind_ok in H as (u3 & s3 & H3 & H).
  apply bind_ok in H as (u4 & s4 & H4 & H).
  apply Ok_inj in H1 as [_ <-].
  apply Ok_inj in H2 as [<- <-].
  assert (Hs3 : session_inv s3 /\ calls (world s3) = calls (world s)).
  { cbn in H3.
    destruct (temporaryRender (self s));
      cbv [bind deref this_ assign ret crash] in H3; cbn in H3;
      apply Ok_inj in H3 as [_ <-]; unfold session_inv; cbn;
      (split; [split; [discriminate | left; split; assumption] | reflexivity]). }
  destruct Hs3 as [Hinv Hc3].
  pose proof (gtk_dialog_run_session evs s3 Hinv) as Hrun.
  destruct u4. rewrite H4 in Hrun. destruct Hrun as [_ Hc4].
  cbv [bind deletePreviousRender assign] in H.
  apply Ok_inj in H as [_ <-].
  cbn. split; [congruence | reflexivity].
Qed.

(** A commit changes neither text. *)
Lemma insertTexImage_keeps_texts s s' :
  insertTexImage s = Ok tt s' ->
  initalTex (self s') = initalTex (self s) /\
  currentTex (self s') = currentTex (self s).
Proof.
  destruct_state s. unfold_methods. unfold convertDocumentToImage. cbn.
  run_goal.
  all: intros H; try discriminate H; apply Ok_inj in H as [_ <-];
    split; reflexivity.
Qed.

Section RunGuard.

Variable trim : string -> string.

(** The no-op guard on the controller's own texts.  [run] on a controller
    with nothing in flight, whatever happens while the dialog is shown: if
    it returns with a current text (the dialog's text and a blank) that
    trims to the empty string, or that equals the initial text, it has
    removed no element from a layer, added none and pushed no undo
    record. *)
Theorem run_noop (pdflatex : option string) (ctl : Control)
  (fresh : LatexDialog) (evs : list Event) (dlgTex : string) (s s' : State) :
  isUpdating (self s) = false ->
  watches (world s) = [] ->
  run trim pdflatex ctl fresh evs dlgTex s = Ok tt s' ->
  trim (currentTex (self s')) = "" \/ initalTex (self s') = currentTex (self s') ->
  mutations s' = mutations s.
Proof.
  intros Hu Hw Hrun Hguard. unfold run in Hrun.
  apply bind_ok in Hrun as (found & s1 & H1 & Hrun).
  pose proof (findTexExecutable_quiet pdflatex s) as Hq1.
  rewrite H1 in Hq1. destruct Hq1 as [Hm1 [Hu1 Hw1]].
  destruct found; cbn [negb] in Hrun.
  - apply bind_ok in Hrun as (u2 & s2 & H2 & Hrun).
    apply bind_ok in Hrun as (u3 & s3 & H3 & Hrun).
    apply bind_ok in Hrun as (c & s4 & H4 & Hrun).
    pose proof (findSelectedTexElement_quiet ctl s1) as Hq2.
    rewrite H2 in Hq2. destruct Hq2 as [Hm2 [Hu2 Hw2]].
    destruct u3.
    apply showTexEditDialog_calls in H3 as [Hc3 _]; [|congruence|congruence].
    apply Ok_inj in H4 as [<- <-].
    assert (Hm3 : mutations s3 = mutations s).
    { unfold mutations in *. rewrite Hc3. congruence. }
    destruct (String.eqb (trim (currentTex (self s3))) "") eqn:Etrim;
      [cbn in Hrun; apply Ok_inj in Hrun as [_ <-]; exact Hm3|].
    destruct (String.eqb (initalTex (self s3)) (currentTex (self s3))) eqn:Esame;
      [cbn in Hrun; apply Ok_inj in Hrun as [_ <-]; exact Hm3|].
    cbn [orb] in Hrun.
    apply insertTexImage_keeps_texts in Hrun as [Hini Hcur].
    apply String.eqb_neq in Etrim, Esame.
    rewrite Hini, Hcur in Hguard.
    destruct Hguard as [Hg|Hg]; contradiction.
  - pose proof (quiet_showErrorToUser MsgNoPdflatex s1) as Hq2.
    rewrite Hrun in Hq2. destruct Hq2 as [Hm2 _]. congruence.
Qed.

End RunGuard.

(** The user clears the buffer, a render of the empty formula fails with
    exit code 1, and the dialog is closed with an empty text. *)
Lemma run_noop_witness :
  exists s',
    run trim_blanks (Some "/usr/bin/pdflatex") formula_selected dialog_as_built
      [TexChanged "" (okEnv 7); ChildExited (W_EXITCODE 1) FileMissing (okEnv 8)]
      "" new_session = Ok tt s' /\
    mutations s' = mutations new_session.
Proof.
  eexists. split; [vm_compute; reflexivity|].
  apply (run_noop trim_blanks (Some "/usr/bin/pdflatex") formula_selected
           dialog_as_built
           [TexChanged "" (okEnv 7); ChildExited (W_EXITCODE 1) FileMissing (okEnv 8)]
           "" new_session).
  - reflexivity.
  - reflexivity.
  - vm_compute. reflexivity.
  - left. vm_compute. reflexivity.
Defined.

Lemma append_blank_differs (t : string) : (t ++ " ")%string <> t.
Proof.
  induction t as [|c t IH]; [discriminate|].
  intros H. apply IH. change (String c (t ++ " ") = String c t) in H.
  injection H as H. exact H.
Qed.

(** The text the guard compares with the initial text is the dialog's text
    and a space: a dialog closed on exactly the initial text does not pass
    the [initalTex == currentTex] test. *)
Remark dialog_text_is_compared_with_a_blank fresh evs s s' :
  isUpdating (self s) = false ->
  watches (world s) = [] ->
  showTexEditDialog fresh evs (initalTex (self s)) s = Ok tt s' ->
  String.eqb (initalTex (self s)) (currentTex (self s')) = false.
Proof.
  intros Hu Hw H.
  apply showTexEditDialog_calls in H as [_ Hcur]; [|assumption|assumption].
  rewrite Hcur. apply String.eqb_neq. intros Heq.
  apply (append_blank_differs (initalTex (self s))). symmetry. exact Heq.
Qed.

Lemma ok_button_is_validity_witness :
  exists s,
    gtk_dialog_run [TexChanged "a" (okEnv 7);
                    ChildExited (W_EXITCODE 1) FileMissing (okEnv 8);
                    TexChanged "ab" (okEnv 9)] session_start_valid = Ok tt s /\
    button_follows_validity s.
Proof.
  eexists. split; [vm_compute; reflexivity|].
  apply (ok_button_is_validity session_start_valid
           [TexChanged "a" (okEnv 7);
            ChildExited (W_EXITCODE 1) FileMissing (okEnv 8);
            TexChanged "ab" (okEnv 9)]).
  - eexists. split; reflexivity.
  - reflexivity.
  - reflexivity.
  - vm_compute. reflexivity.
Defined.

Lemma dialog_text_is_compared_with_a_blank_witness :
  exists s',
    showTexEditDialog dialog_as_built [] "x^2 " (committing FileMissing "x^2 ")
      = Ok tt s' /\
    String.eqb (initalTex (self (committing FileMissing "x^2 ")))
      (currentTex (self s')) = false.
Proof.
  eexists. split; [vm_compute; reflexivity|].
  apply (dialog_text_is_compared_with_a_blank dialog_as_built []
           (committing FileMissing "x^2 ")).
  - reflexivity.
  - reflexivity.
  - vm_compute. reflexivity.
Defined.

(** ** Starting a render *)

(** A start that fails: from a session with nothing in flight, an edit for
    which tex.tex cannot be written or [pdflatex] cannot be spawned is one
    invocation that shows exactly one dialog and leaves nothing in flight
    and nothing watched.  When the write fails, tex.tex, the dialog and
    [lastPreviewedTex] stay as they were; when only the spawn fails, tex.tex
    and [lastPreviewedTex] are already those of the new text. *)
Theorem failed_start_leaves_idle (s : State) (buffer : string) (e : Env) :
  dlg (self s) <> None ->
  isUpdating (self s) = false ->
  write_ok e = false \/ spawn e = None ->
  exists s' m,
    handleTexChanged buffer e s = Ok tt s' /\
    messages (world s') = messages (world s) ++ [m] /\
    m = (if write_ok e then MsgSpawnFailed else MsgSaveTexFailed) /\
    invocations (world s') = invocations (world s) ++ [texContents buffer] /\
    currentTex (self s') = buffer /\
    isUpdating (self s') = false /\
    watches (world s') = watches (world s) /\
    isValidTex (self s') = isValidTex (self s) /\
    (write_ok e = false ->
       texFile (world s') = texFile (world s) /\
       lastPreviewedTex (self s') = lastPreviewedTex (self s) /\
       dlg (self s') = dlg (self s)) /\
    (write_ok e = true ->
       texFile (world s') = Some (texContents buffer) /\
       lastPreviewedTex (self s') = buffer).
Proof.
  intros Hd Hu Hfail. revert Hfail.
  destruct_state s. cbn in Hd, Hu. subst.
  destruct dl as [d|]; [clear Hd | congruence].
  destruct e as [wr sp]. cbn [write_ok spawn].
  unfold_methods. cbn.
  destruct wr; cbn; [destruct sp as [p|]; cbn|].
  - intros [Hf|Hf]; discriminate Hf.
  - intros _. run_goal.
    all: do 2 eexists; (split; [reflexivity|]); cbn.
    all: repeat split; intros; try reflexivity; discriminate.
  - intros _. do 2 eexists. (split; [reflexivity|]). cbn.
    repeat split; intros; try reflexivity; discriminate.
Qed.

Lemma failed_start_leaves_idle_witness :
  exists s' m,
    handleTexChanged "a" {| write_ok := true; spawn := None |} session_start
      = Ok tt s' /\
    messages (world s') = messages (world session_start) ++ [m] /\
    m = MsgSpawnFailed /\
    isUpdating (self s') = false /\
    watches (world s') = [].
Proof.
  destruct (failed_start_leaves_idle session_start "a"
              {| write_ok := true; spawn := None |})
    as [s' [m [H1 [H2 [H3 [_ [_ [H6 [H7 _]]]]]]]]].
  - discriminate.
  - reflexivity.
  - right. reflexivity.
  - exists s', m. repeat split; assumption.
Defined.

(** ** The event loop runs on *)

(** An edit never aborts a session. *)
Lemma handleTexChanged_ok buffer e s :
  session_inv s ->
  exists s', handleTexChanged buffer e s = Ok tt s'.
Proof.
  destruct_state s. unfold session_inv. cbn.
  intros [Hd [[Hu Hw] | [Hu [pid Hw]]]]; subst;
    (destruct dl as [d|]; [clear Hd | congruence]);
    unfold_methods; cbn.
  all: run_goal.
  all: eexists; reflexivity.
Qed.

Lemma dispatch_ok ev s :
  session_inv s ->
  no_blank_success ev = true ->
  exists s', dispatch ev s = Ok tt s'.
Proof.
  intros Hs Hev. destruct ev as [buffer e | rc out e].
  - apply handleTexChanged_ok. exact Hs.
  - cbn in Hev. apply Bool.negb_true_iff in Hev.
    destruct Hs as [Hd [[Hu Hw] | [Hu [pid Hw]]]].
    + exists s. unfold dispatch, bind, get. rewrite Hw. reflexivity.
    + destruct (completion_retrigger s pid rc out e Hd Hu Hw Hev)
        as [s' [Hrun _]].
      exists s'. exact Hrun.
Qed.

(** The event loop neither aborts nor touches the document: from a
    session with nothing in flight, any sequence of edits and child exits
    that holds no blank success (exit status 0 with a PDF without pages)
    runs to its end, and no call at all was made on the document, the
    view, the layer, the undo handler or the selection. *)
Theorem session_runs_on (s0 : State) (evs : list Event) :
  dlg (self s0) <> None ->
  isUpdating (self s0) = false ->
  watches (world s0) = [] ->
  forallb no_blank_success evs = true ->
  exists s,
    gtk_dialog_run evs s0 = Ok tt s /\
    calls (world s) = calls (world s0).
Proof.
  intros Hd Hu Hw Hevs.
  assert (Hs0 : session_inv s0) by (unfold session_inv; auto).
  clear Hd Hu Hw. revert s0 Hs0 Hevs.
  induction evs as [|ev evs IH]; intros s0 Hs0 Hevs.
  - exists s0. split; reflexivity.
  - cbn [forallb] in Hevs. apply Bool.andb_true_iff in Hevs as [Hev Hevs].
    destruct (dispatch_ok ev s0 Hs0 Hev) as [s1 H1].
    pose proof (dispatch_session ev s0 Hs0) as Hinv.
    rewrite H1 in Hinv. destruct Hinv as [Hs1 Hc1].
    destruct (IH s1 Hs1 Hevs) as [s [Hrun Hc]].
    exists s. split.
    + cbn [gtk_dialog_run]. unfold bind. rewrite H1. exact Hrun.
    + congruence.
Qed.

Lemma session_runs_on_witness :
  exists s,
    gtk_dialog_run [TexChanged "a" (okEnv 7);
                    ChildExited (W_EXITCODE 1) FileMissing (okEnv 8);
                    TexChanged "ab" {| write_ok := false; spawn := None |}]
      session_start = Ok tt s /\
    calls (world s) = calls (world session_start).
Proof.
  apply (session_runs_on session_start).
  - discriminate.
  - reflexivity.
  - reflexivity.
  - vm_compute. reflexivity.
Defined.

(** On a blank success the completion does abort. *)
Lemma blank_success_aborts s pid rc out e :
  dlg (self s) <> None ->
  isUpdating (self s) = true ->
  watches (world s) = [(pid, true)] ->
  blank_success rc out = true ->
  dispatch (ChildExited rc out e) s = Crash NullPointer.
Proof.
  destruct_state s. cbn. intros Hd -> ->.
  destruct dl as [d|]; [clear Hd | congruence].
  unfold blank_success, has_no_page. unfold_methods. cbn.
  run_goal.
  all: intros Hblank; try discriminate Hblank; reflexivity.
Qed.

(** ** What is in flight *)

(** *** Invariants, method by method *)

Lemma keeps_ret {A} (P : State -> Prop) (a : A) : keeps P (ret a).
Proof. intros s Hs. exact Hs. Qed.

Lemma keeps_crash {A} (P : State -> Prop) (f : Fault) : keeps P (@crash A f).
Proof. intros s Hs. exact I. Qed.

Lemma keeps_get (P : State -> Prop) : keeps P get.
Proof. intros s Hs. exact Hs. Qed.

Lemma keeps_this {A} (P : State -> Prop) (f : LatexController -> A) :
  keeps P (this_ f).
Proof. intros s Hs. exact Hs. Qed.

Lemma keeps_bind {A B} (P : State -> Prop) (m : M A) (k : A -> M B) :
  keeps P m -> (forall a, keeps P (k a)) -> keeps P (bind m k).
Proof.
  intros Hm Hk s Hs. unfold bind. specialize (Hm s Hs).
  destruct (m s) as [a s1|f]; [|exact I].
  exact (Hk a s1 Hm).
Qed.

Lemma keeps_assign (P : State -> Prop) (f : LatexController -> LatexController) :
  (forall s, P s -> P (on_self f s)) -> keeps P (assign f).
Proof. intros Hf s Hs. exact (Hf s Hs). Qed.

Lemma keeps_outside (P : State -> Prop) (f : World -> World) :
  (forall s, P s -> P (on_world f s)) -> keeps P (outside f).
Proof. intros Hf s Hs. exact (Hf s Hs). Qed.

(** [runCommandAsync] breaks the invariant only between its
    [setUpdating(true)] and the assignment to [lastPreviewedTex] that
    follows it. *)
Lemma runCommandAsync_submitted e : keeps submitted_inv (runCommandAsync e).
Proof.
  intros s Hs. clear Hs. destruct_state s. unfold submitted_inv.
  destruct upd, dl as [d|], e as [wr sp], valid, wr, sp;
    lazy -[texContents last app]; try exact I.
  all: try exact I.
  all: intros Hup; try discriminate Hup.
  all: rewrite ?last_last; split; reflexivity.
Qed.

Lemma dispatch_submitted ev : keeps submitted_inv (dispatch ev).
Proof.
  destruct ev as [buffer e | rc out e];
    unfold dispatch, handleTexChanged, setCurrentTex, onPdfRenderComplete,
      triggerImageUpdate, g_child_watch_add, setUpdating, insertTexImage,
      deleteOldImage, loadRendered, setImageInDialog, deletePreviousRender,
      gtk_widget_set_sensitive_ok, gtk_label_set_text_error, showErrorToUser,
      call, deref, g_assert, when.
  all: repeat lazymatch goal with
    | |- keeps _ (bind _ _) => apply keeps_bind; [|intros ?]
    | |- keeps _ (ret _) => apply keeps_ret
    | |- keeps _ (crash _) => apply keeps_crash
    | |- keeps _ get => apply keeps_get
    | |- keeps _ (this_ _) => apply keeps_this
    | |- keeps _ (runCommandAsync _) => apply runCommandAsync_submitted
    | |- keeps _ (assign _) =>
        apply keeps_assign; intros s0 H0; unfold submitted_inv in *; cbn in *;
        first [exact H0 | intros Hx; discriminate Hx]
    | |- keeps _ (outside _) =>
        apply keeps_outside; intros s0 H0; unfold submitted_inv in *; cbn in *;
        exact H0
    | |- keeps _ (match ?x with _ => _ end) => destruct x
    end.
Qed.

(** The render in flight is the one for [lastPreviewedTex]: in a session
    that starts with nothing in flight, whenever a render is in flight
    after any events, tex.tex holds the template around [lastPreviewedTex]
    and that text's is the latest invocation. *)
Theorem in_flight_is_last_previewed (s0 : State) (evs : list Event) (s : State) :
  dlg (self s0) <> None ->
  isUpdating (self s0) = false ->
  watches (world s0) = [] ->
  gtk_dialog_run evs s0 = Ok tt s ->
  isUpdating (self s) = true ->
  texFile (world s) = Some (texContents (lastPreviewedTex (self s))) /\
  last (invocations (world s)) "" = texContents (lastPreviewedTex (self s)).
Proof.
  intros Hd Hu Hw Hrun.
  assert (Hs0 : session_inv s0) by (unfold session_inv; auto).
  assert (Hb0 : submitted_inv s0).
  { intros Hup. rewrite Hu in Hup. discriminate Hup. }
  clear Hd Hu Hw. revert s0 Hs0 Hb0 Hrun.
  induction evs as [|ev evs IH]; intros s0 Hs0 Hb0 Hrun.
  - apply Ok_inj in Hrun as [_ <-]. exact Hb0.
  - cbn [gtk_dialog_run] in Hrun. apply bind_ok in Hrun as ([] & s1 & H1 & Hrun).
    pose proof (dispatch_session ev s0 Hs0) as Hinv.
    pose proof (dispatch_submitted ev s0 Hb0) as Hsub.
    rewrite H1 in Hinv, Hsub. destruct Hinv as [Hs1 _].
    exact (IH s1 Hs1 Hsub Hrun).
Qed.

Lemma in_flight_is_last_previewed_witness :
  exists s,
    gtk_dialog_run [TexChanged "a" (okEnv 7); TexChanged "ab" (okEnv 8);
                    ChildExited 0 one_page_pdf (okEnv 9);
                    TexChanged "abc" (okEnv 10)] session_start = Ok tt s /\
    currentTex (self s) = "abc" /\
    lastPreviewedTex (self s) = "ab" /\
    texFile (world s) = Some (texContents (lastPreviewedTex (self s))) /\
    last (invocations (world s)) "" = texContents (lastPreviewedTex (self s)).
Proof.
  eexists. split; [vm_compute; reflexivity|].
  split; [reflexivity|]. split; [reflexivity|].
  apply (in_flight_is_last_previewed session_start
           [TexChanged "a" (okEnv 7); TexChanged "ab" (okEnv 8);
            ChildExited 0 one_page_pdf (okEnv 9);
            TexChanged "abc" (okEnv 10)]).
  - discriminate.
  - reflexivity.
  - reflexivity.
  - vm_compute. reflexivity.
  - reflexivity.
Defined.

(** ** Commit and the document lock *)

Lemma lock_discipline_app (cs cs' : list DocCall) : forall h,
  lock_discipline h (cs ++ cs') =
    match lock_discipline h cs with
    | Some h1 => lock_discipline h1 cs'
    | None => None
    end.
Proof.
  induction cs as [|c cs IH]; intros h; [reflexivity|].
  destruct c, h; cbn; try reflexivity; apply IH.
Qed.

Lemma locks_ret {A} (a : A) (h : bool) : locks (ret a) h h.
Proof. intros s Hs. exact Hs. Qed.

Lemma locks_crash {A} (f : Fault) (h h' : bool) : locks (@crash A f) h h'.
Proof. intros s Hs. exact I. Qed.

Lemma locks_get (h : bool) : locks get h h.
Proof. intros s Hs. exact Hs. Qed.

Lemma locks_this {A} (f : LatexController -> A) (h : bool) : locks (this_ f) h h.
Proof. intros s Hs. exact Hs. Qed.

Lemma locks_assign (f : LatexController -> LatexController) (h : bool) :
  locks (assign f) h h.
Proof. intros s Hs. exact Hs. Qed.

Lemma locks_showErrorToUser (m : Msg) (h : bool) : locks (showErrorToUser m) h h.
Proof. intros s Hs. exact Hs. Qed.

Lemma locks_call (c : DocCall) (h h' : bool) :
  lock_discipline h [c] = Some h' -> locks (call c) h h'.
Proof.
  intros Hc s Hs. unfold call, outside. cbn.
  rewrite lock_discipline_app, Hs. exact Hc.
Qed.

Lemma locks_bind {A B} (m : M A) (k : A -> M B) (h h1 h2 : bool) :
  locks m h h1 -> (forall a, locks (k a) h1 h2) -> locks (bind m k) h h2.
Proof.
  intros Hm Hk s Hs. unfold bind. specialize (Hm s Hs).
  destruct (m s) as [a s1|f]; [|exact I].
  exact (Hk a s1 Hm).
Qed.

(** [findSelectedTexElement] releases the lock it takes, on each of its
    three ways out. *)
Lemma findSelectedTexElement_locks (ctl : Control) :
  locks (findSelectedTexElement ctl) false false.
Proof.
  unfold findSelectedTexElement, when.
  repeat lazymatch goal with
  | |- locks (bind _ _) _ _ => eapply locks_bind; [|intros ?]
  | |- locks (ret _) _ _ => apply locks_ret
  | |- locks (this_ _) _ _ => apply locks_this
  | |- locks (assign _) _ _ => apply locks_assign
  | |- locks (call _) _ _ => apply locks_call; reflexivity
  | |- locks (match ?x with _ => _ end) _ _ => destruct x
  end.
Qed.

(** [insertTexImage] adds to the layer and rerenders while it holds the
    lock, and releases it before it pushes the undo record. *)
Lemma insertTexImage_locks : locks insertTexImage false false.
Proof.
  unfold insertTexImage, loadRendered, deleteOldImage, deref.
  repeat lazymatch goal with
  | |- locks (bind _ _) _ _ => eapply locks_bind; [|intros ?]
  | |- locks (ret _) _ _ => apply locks_ret
  | |- locks (crash _) _ _ => apply locks_crash
  | |- locks get _ _ => apply locks_get
  | |- locks (this_ _) _ _ => apply locks_this
  | |- locks (assign _) _ _ => apply locks_assign
  | |- locks (showErrorToUser _) _ _ => apply locks_showErrorToUser
  | |- locks (call _) _ _ => apply locks_call; reflexivity
  | |- locks (match ?x with _ => _ end) _ _ => destruct x
  end.
Qed.

Section RunLock.

Variable trim : string -> string.

(** [run] never returns with the document locked, never takes the lock
    twice and never adds to a layer or rerenders without it: if the calls
    made before follow the lock discipline and leave the lock free, so do
    the calls after [run], whatever was selected, whatever happened while
    the dialog was shown and whether or not it commits. *)
Theorem run_keeps_lock_discipline (pdflatex : option string) (ctl : Control)
  (fresh : LatexDialog) (evs : list Event) (dlgTex : string) (s s' : State) :
  isUpdating (self s) = false ->
  watches (world s) = [] ->
  lock_discipline false (calls (world s)) = Some false ->
  run trim pdflatex ctl fresh evs dlgTex s = Ok tt s' ->
  lock_discipline false (calls (world s')) = Some false.
Proof.
  intros Hu Hw Hlock Hrun. unfold run in Hrun.
  apply bind_ok in Hrun as (found & s1 & H1 & Hrun).
  pose proof (findTexExecutable_quiet pdflatex s) as Hq1.
  rewrite H1 in Hq1. destruct Hq1 as [_ [Hu1 Hw1]].
  assert (Hc1 : calls (world s1) = calls (world s)).
  { unfold findTexExecutable in H1. destruct pdflatex;
      cbv [bind assign ret] in H1; apply Ok_inj in H1 as [_ <-]; reflexivity. }
  destruct found; cbn [negb] in Hrun.
  - apply bind_ok in Hrun as (u2 & s2 & H2 & Hrun).
    apply bind_ok in Hrun as (u3 & s3 & H3 & Hrun).
    apply bind_ok in Hrun as (c & s4 & H4 & Hrun).
    pose proof (findSelectedTexElement_quiet ctl s1) as Hq2.
    rewrite H2 in Hq2. destruct Hq2 as [_ [Hu2 Hw2]].
    assert (Hl2 : lock_discipline false (calls (world s2)) = Some false).
    { pose proof (findSelectedTexElement_locks ctl s1) as Hl.
      rewrite H2 in Hl. apply Hl. rewrite Hc1. exact Hlock. }
    destruct u3.
    apply showTexEditDialog_calls in H3 as [Hc3 _]; [|congruence|congruence].
    apply Ok_inj in H4 as [<- <-].
    destruct (String.eqb (trim (currentTex (self s3))) ""
              || String.eqb (initalTex (self s3)) (currentTex (self s3))).
    + apply Ok_inj in Hrun as [_ <-]. rewrite Hc3. exact Hl2.
    + pose proof (insertTexImage_locks s3) as Hl.
      rewrite Hrun in Hl. apply Hl. rewrite Hc3. exact Hl2.
  - apply Ok_inj in Hrun as [_ <-]. cbn. rewrite Hc1. exact Hlock.
Qed.

End RunLock.

Lemma run_keeps_lock_discipline_witness :
  exists s',
    run trim_blanks (Some "/usr/bin/pdflatex") formula_selected dialog_as_built
      [TexChanged "y" (okEnv 7); ChildExited 0 one_page_pdf (okEnv 8)]
      "y" new_session = Ok tt s' /\
    calls (world s') =
      [Doc_lock; Doc_unlock; Control_clearSelectionEndText;
       Xournal_deleteSelection 2%nat (ElTex formula_x2) (Some 1%nat)] ++
      insertion_of (self s') 3%nat 2%nat
        (Some {| img_x := 10; img_y := 20;
                 img_width := (12 * (30 / 12))%float; img_height := 12;
                 img_text := "y "; img_binaryData := "%PDF-1.5" |}) /\
    lock_discipline false (calls (world s')) = Some false.
Proof.
  eexists. split; [vm_compute; reflexivity|].
  split; [vm_compute; reflexivity|].
  apply (run_keeps_lock_discipline trim_blanks (Some "/usr/bin/pdflatex")
           formula_selected dialog_as_built
           [TexChanged "y" (okEnv 7); ChildExited 0 one_page_pdf (okEnv 8)]
           "y" new_session).
  - reflexivity.
  - reflexivity.
  - reflexivity.
  - vm_compute. reflexivity.
Defined.

(** What a commit that returns has called, and with what. *)
Lemma insertTexImage_calls s s' :
  insertTexImage s = Ok tt s' ->
  exists l v img,
    layer (self s) = Some l /\
    view (self s) = Some v /\
    calls (world s') =
      calls (world s) ++ deletion_of_selected (self s) v ++
      insertion_of (self s) l v img /\
    (forall i, img = Some i -> img_text i = currentTex (self s)).
Proof.
  intros H.
  assert (Hm : match insertTexImage s with
               | Ok _ s' =>
                   exists l v img,
                     layer (self s) = Some l /\
                     view (self s) = Some v /\
                     calls (world s') =
                       calls (world s) ++ deletion_of_selected (self s) v ++
                       insertion_of (self s) l v img /\
                     (forall i, img = Some i -> img_text i = currentTex (self s))
               | Crash _ => True
               end).
  { clear H. destruct_state s.
    destruct ly as [l|], vw as [v|], sTI as [t|], sT as [t'|],
      pf as [| |contents [| |[|[W Hp] more]]];
      unfold_methods; unfold convertDocumentToImage, setBinaryData,
        deletion_of_selected, insertion_of;
      run_lazy.
    all: try exact I.
    all: do 3 eexists; (split; [reflexivity|]); (split; [reflexivity|]).
    all: split; [rewrite <- ?app_assoc; reflexivity|].
    all: intros i Hi; try discriminate Hi; injection Hi as <-; reflexivity. }
  rewrite H in Hm. exact Hm.
Qed.

(** A commit with a PDF that loads: [insertTexImage] runs to its end
    without a dialog; the asset is the one [convertDocumentToImage] makes
    of the first page, with the file's bytes; the element selected before
    is removed first and forgotten; and the layer, the view, the undo
    record and the new selection are all handed that one asset, in this
    order. *)
Theorem insertTexImage_loaded (s : State) (l : Layer) (v : XojPageView)
  (contents : string) (W Hp : float) (more : PopplerDocument) :
  pdfFile (world s) = FileData contents (PopplerOk ((W, Hp) :: more)) ->
  layer (self s) = Some l ->
  view (self s) = Some v ->
  exists s' img,
    convertDocumentToImage (self s) ((W, Hp) :: more) = Some img /\
    insertTexImage s = Ok tt s' /\
    calls (world s') =
      calls (world s) ++ deletion_of_selected (self s) v ++
      insertion_of (self s) l v (Some (setBinaryData contents img)) /\
    messages (world s') = messages (world s) /\
    deletion_of_selected (self s') v =
      match selectedTexImage (self s), selectedText (self s) with
      | Some _, Some t => [Xournal_deleteSelection v (ElText t) (page (self s))]
      | _, _ => []
      end.
Proof.
  intros Hpdf Hl Hv.
  destruct_state s. cbn in Hpdf, Hl, Hv. subst.
  destruct sTI as [t|], sT as [t'|];
    unfold_methods; unfold convertDocumentToImage, setBinaryData,
      deletion_of_selected, insertion_of;
    run_lazy.
  all: do 2 eexists; (split; [reflexivity|]); (split; [reflexivity|]).
  all: split; [rewrite <- ?app_assoc; reflexivity|].
  all: split; reflexivity.
Qed.

Lemma insertTexImage_loaded_witness :
  exists s' img,
    convertDocumentToImage (self (committing one_page_pdf "y "))
      [(30%float, 12%float)] = Some img /\
    insertTexImage (committing one_page_pdf "y ") = Ok tt s' /\
    calls (world s') =
      calls (world (committing one_page_pdf "y ")) ++
      deletion_of_selected (self (committing one_page_pdf "y ")) 2%nat ++
      insertion_of (self (committing one_page_pdf "y ")) 3%nat 2%nat
        (Some (setBinaryData "%PDF-1.5" img)).
Proof.
  destruct (insertTexImage_loaded (committing one_page_pdf "y ") 3%nat 2%nat
              "%PDF-1.5" 30 12 [] eq_refl eq_refl eq_refl)
    as [s' [img [H1 [H2 [H3 _]]]]].
  exists s', img. repeat split; assumption.
Defined.

(** [deleteOldImage] forgets what it has deleted: with a view and at most
    one of a formula and a text selected, it removes that element with one
    call and a second [deleteOldImage] calls nothing. *)
Theorem deleteOldImage_once (s : State) (v : XojPageView) :
  view (self s) = Some v ->
  selectedTexImage (self s) = None \/ selectedText (self s) = None ->
  exists s1,
    deleteOldImage s = Ok tt s1 /\
    calls (world s1) = calls (world s) ++ deletion_of_selected (self s) v /\
    selectedTexImage (self s1) = None /\
    selectedText (self s1) = None /\
    deleteOldImage s1 = Ok tt s1.
Proof.
  intros Hv Hone. destruct_state s. cbn in Hv, Hone. subst.
  destruct sTI as [t|], sT as [t'|];
    try (destruct Hone as [Hone|Hone]; discriminate Hone).
  all: eexists; (split; [reflexivity|]).
  all: split; [cbn; rewrite ?app_nil_r; reflexivity|].
  all: repeat split; reflexivity.
Qed.

Lemma deleteOldImage_once_witness :
  exists s1,
    deleteOldImage (committing FileMissing "y ") = Ok tt s1 /\
    calls (world s1) =
      [Xournal_deleteSelection 2%nat (ElTex formula_x2) (Some 1%nat)] /\
    deleteOldImage s1 = Ok tt s1.
Proof.
  destruct (deleteOldImage_once (committing FileMissing "y ") 2%nat eq_refl
              (or_intror eq_refl))
    as [s1 [H1 [H2 [_ [_ H5]]]]].
  exists s1. repeat split; assumption.
Defined.

Section RunCommit.

Variable trim : string -> string.

(** The text of a committed formula: whenever [run] returns, every asset
    it has added to a layer carries the dialog's text followed by one
    blank. *)
Theorem committed_text_has_blank (pdflatex : option string) (ctl : Control)
  (fresh : LatexDialog) (evs : list Event) (dlgTex : string) (s s' : State)
  (l : Layer) (img : TexImage) :
  isUpdating (self s) = false ->
  watches (world s) = [] ->
  run trim pdflatex ctl fresh evs dlgTex s = Ok tt s' ->
  In (Layer_addElement l (Some img)) (calls (world s')) ->
  ~ In (Layer_addElement l (Some img)) (calls (world s)) ->
  img_text img = (dlgTex ++ " ")%string.
Proof.
  intros Hu Hw Hrun Hin Hnew. unfold run in Hrun.
  assert (Hmut : forall st, In (Layer_addElement l (Some img)) (calls (world st))
                   <-> In (Layer_addElement l (Some img)) (mutations st)).
  { intros st. unfold mutations. rewrite filter_In. split; [|intros [H _]; exact H].
    intros H. split; [exact H | reflexivity]. }
  apply bind_ok in Hrun as (found & s1 & H1 & Hrun).
  pose proof (findTexExecutable_quiet pdflatex s) as Hq1.
  rewrite H1 in Hq1. destruct Hq1 as [Hm1 [Hu1 Hw1]].
  destruct found; cbn [negb] in Hrun.
  - apply bind_ok in Hrun as (u2 & s2 & H2 & Hrun).
    apply bind_ok in Hrun as (u3 & s3 & H3 & Hrun).
    apply bind_ok in Hrun as (c & s4 & H4 & Hrun).
    pose proof (findSelectedTexElement_quiet ctl s1) as Hq2.
    rewrite H2 in Hq2. destruct Hq2 as [Hm2 [Hu2 Hw2]].
    destruct u3.
    apply showTexEditDialog_calls in H3 as [Hc3 Hcur]; [|congruence|congruence].
    apply Ok_inj in H4 as [<- <-].
    assert (Hold : ~ In (Layer_addElement l (Some img)) (calls (world s3))).
    { rewrite Hc3, Hmut, Hm2, Hm1, <- Hmut. exact Hnew. }
    destruct (String.eqb (trim (currentTex (self s3))) ""
              || String.eqb (initalTex (self s3)) (currentTex (self s3))).
    + apply Ok_inj in Hrun as [_ <-]. contradiction.
    + apply insertTexImage_calls in Hrun as (l' & v' & img' & _ & _ & Hc & Htxt).
      rewrite Hc in Hin. apply in_app_or in Hin as [Hin|Hin]; [contradiction|].
      apply in_app_or in Hin as [Hin|Hin].
      * unfold deletion_of_selected in Hin.
        destruct (selectedTexImage (self s3)), (selectedText (self s3));
          cbn in Hin; intuition discriminate.
      * unfold insertion_of in Hin. cbn in Hin.
        destruct Hin as [Hin|[Hin|[Hin|[Hin|[Hin|[Hin|[]]]]]]];
          try discriminate Hin.
        injection Hin as _ Himg. rewrite (Htxt img Himg). exact Hcur.
  - apply Ok_inj in Hrun as [_ <-]. cbn in Hin.
    apply Hmut in Hin. rewrite Hm1 in Hin. apply Hmut in Hin. contradiction.
Qed.

End RunCommit.

Lemma committed_text_has_blank_witness :
  exists s' img,
    run trim_blanks (Some "/usr/bin/pdflatex") formula_selected dialog_as_built
      [TexChanged "y" (okEnv 7); ChildExited 0 one_page_pdf (okEnv 8)]
      "y" new_session = Ok tt s' /\
    In (Layer_addElement 3%nat (Some img)) (calls (world s')) /\
    img_text img = "y ".
Proof.
  do 2 eexists. split; [vm_compute; reflexivity|].
  split; [do 5 right; left; reflexivity|].
  refine (committed_text_has_blank trim_blanks (Some "/usr/bin/pdflatex")
           formula_selected dialog_as_built
           [TexChanged "y" (okEnv 7); ChildExited 0 one_page_pdf (okEnv 8)]
           "y" new_session _ 3%nat _ eq_refl eq_refl _ _ _).
  - vm_compute. reflexivity.
  - do 5 right. left. reflexivity.
  - intros [].
Defined.

(** ** The dialog closed on the initial text *)

Section RunUnchanged.

Variable trim : string -> string.

(** C3. The no-op guard misses the unchanged text.  A session whose
    final input text is the initial one is to mutate nothing, and [run]
    means to return there (its comment: nothing to insert or change), but
    [showTexEditDialog] has appended a blank to the current text before
    [run] compares it with the initial text.  So whenever [run] finds
    [pdflatex] and returns after the dialog was closed on exactly the
    initial text, and that text and a blank do not trim to the empty
    string, it has gone through [insertTexImage]: after the deletions
    [del] of what was selected it has added an element to a layer and
    pushed an undo record for it, and an asset that was added carries the
    initial text and a blank. *)
Theorem unchanged_text_is_committed (path : string) (ctl : Control)
  (fresh : LatexDialog) (evs : list Event) (dlgTex : string) (s s' : State) :
  isUpdating (self s) = false ->
  watches (world s) = [] ->
  run trim (Some path) ctl fresh evs dlgTex s = Ok tt s' ->
  initalTex (self s') = dlgTex ->
  String.eqb (trim (dlgTex ++ " ")) "" = false ->
  exists l p img del,
    mutations s' =
      mutations s ++ del ++
      [Layer_addElement l img; Undo_addInsertUndoAction p l img] /\
    (forall i, img = Some i -> img_text i = (initalTex (self s') ++ " ")%string).
Proof.
  intros Hu Hw Hrun Hsame Htrim. unfold run in Hrun.
  apply bind_ok in Hrun as (found & s1 & H1 & Hrun).
  pose proof (findTexExecutable_quiet (Some path) s) as Hq1.
  rewrite H1 in Hq1. destruct Hq1 as [Hm1 [Hu1 Hw1]].
  unfold findTexExecutable in H1. cbv [bind assign ret] in H1.
  apply Ok_inj in H1 as [<- _]. cbn [negb] in Hrun.
  apply bind_ok in Hrun as (u2 & s2 & H2 & Hrun).
  apply bind_ok in Hrun as (u3 & s3 & H3 & Hrun).
  apply bind_ok in Hrun as (c & s4 & H4 & Hrun).
  pose proof (findSelectedTexElement_quiet ctl s1) as Hq2.
  rewrite H2 in Hq2. destruct Hq2 as [Hm2 [Hu2 Hw2]].
  destruct u3.
  apply showTexEditDialog_calls in H3 as [Hc3 Hcur]; [|congruence|congruence].
  apply Ok_inj in H4 as [<- <-].
  assert (Hm3 : mutations s3 = mutations s).
  { unfold mutations in *. rewrite Hc3. congruence. }
  rewrite Hcur, Htrim in Hrun. cbn [orb] in Hrun.
  destruct (String.eqb (initalTex (self s3)) (dlgTex ++ " ")) eqn:Esame.
  - apply Ok_inj in Hrun as [_ <-]. apply String.eqb_eq in Esame.
    rewrite Hsame in Esame.
    exfalso. apply (append_blank_differs dlgTex). symmetry. exact Esame.
  - apply insertTexImage_calls in Hrun as (l & v & img & _ & _ & Hcalls & Htext).
    exists l, (page (self s3)), img, (deletion_of_selected (self s3) v). split.
    + unfold mutations in *. rewrite Hcalls, !filter_app, Hm3.
      f_equal. f_equal.
      unfold deletion_of_selected.
      destruct (selectedTexImage (self s3)), (selectedText (self s3));
        reflexivity.
    + intros i Hi. rewrite (Htext i Hi), Hsame. exact Hcur.
Qed.

End RunUnchanged.

(** A formula with the text "x^2 " is selected; the user adds "y" to it,
    the preview renders, the user takes the "y" away again, the preview
    renders, and the dialog is closed with OK on "x^2 ", the text it was
    opened with.  The formula is deleted and a new one, with the text
    "x^2  ", is added in its place, with an undo record. *)
Lemma unchanged_text_is_committed_witness :
  exists s',
    run trim_blanks (Some "/usr/bin/pdflatex") formula_selected dialog_as_built
      [TexChanged "x^2 y" (okEnv 7); ChildExited 0 one_page_pdf (okEnv 8);
       TexChanged "x^2 " (okEnv 9); ChildExited 0 one_page_pdf (okEnv 10)]
      "x^2 " new_session = Ok tt s' /\
    initalTex (self s') = "x^2 " /\
    exists l p img del,
      mutations s' =
        mutations new_session ++ del ++
        [Layer_addElement l img; Undo_addInsertUndoAction p l img] /\
      (forall i, img = Some i -> img_text i = (initalTex (self s') ++ " ")%string).
Proof.
  eexists. split; [vm_compute; reflexivity|]. split; [reflexivity|].
  apply (unchanged_text_is_committed trim_blanks "/usr/bin/pdflatex"
           formula_selected dialog_as_built
           [TexChanged "x^2 y" (okEnv 7); ChildExited 0 one_page_pdf (okEnv 8);
            TexChanged "x^2 " (okEnv 9); ChildExited 0 one_page_pdf (okEnv 10)]
           "x^2 " new_session).
  - reflexivity.
  - reflexivity.
  - vm_compute. reflexivity.
  - reflexivity.
  - reflexivity.
Defined.

(** ** More on completions *)

(** Exit status 0 with nothing to load: when the child of the preview
    render in flight exits with status 0 but tex.pdf is missing, unreadable
    or unparsable, the completion still marks the formula valid, with an
    empty error label and a sensitive OK button; the controller then holds
    no preview asset, and the preview the dialog showed before stays. *)
Theorem preview_unloadable_counts_as_valid (s : State) (pid : GPid) (rc : Z)
  (out : FileState) (e : Env) (d : LatexDialog) :
  dlg (self s) = Some d ->
  isUpdating (self s) = true ->
  watches (world s) = [(pid, true)] ->
  g_spawn_check_exit_status rc = None ->
  load_fails out = true ->
  exists s' d',
    dispatch (ChildExited rc out e) s = Ok tt s' /\
    isValidTex (self s') = true /\
    temporaryRender (self s') = None /\
    dlg (self s') = Some d' /\
    okSensitive d' = true /\
    errorLabel d' = "" /\
    tempRender d' = tempRender d /\
    pdfFile (world s') = out.
Proof.
  intros Hd Hu Hw Hrc Hload. revert Hload.
  destruct_state s. cbn in Hd, Hu, Hw. subst.
  destruct e as [wr sp], out as [| |contents [| |pdf]];
    intros Hload; try discriminate Hload; clear Hload;
    unfold_methods; rewrite Hrc; run_lazy.
  all: do 2 eexists; (split; [reflexivity|]).
  all: repeat split; reflexivity.
Qed.

Lemma preview_unloadable_counts_as_valid_witness :
  exists s' d',
    dispatch (ChildExited 0 FileUnreadable (okEnv 8)) rendering_a = Ok tt s' /\
    isValidTex (self s') = true /\
    temporaryRender (self s') = None /\
    dlg (self s') = Some d' /\
    okSensitive d' = true.
Proof.
  destruct (preview_unloadable_counts_as_valid rendering_a 7 0 FileUnreadable
              (okEnv 8) {| okSensitive := false;
                           errorLabel := invalid_label;
                           tempRender := None |})
    as [s' [d' [H1 [H2 [H3 [H4 [H5 _]]]]]]].
  - vm_compute. reflexivity.
  - vm_compute. reflexivity.
  - vm_compute. reflexivity.
  - vm_compute. reflexivity.
  - reflexivity.
  - exists s', d'. repeat split; assumption.
Defined.

(** ** Replacing an element *)

(** The replacement keeps the height and the place of what it replaces:
    when a formula or a text with a height that is not zero is selected
    (on a current page with a view, in a new controller),
    [findSelectedTexElement] records its
    size and the selection's position, and the asset
    [convertDocumentToImage] then makes of any PDF page has that height
    and that position, and, when the page's ratio is not zero, the height
    times the ratio as its width. *)
Theorem replacement_keeps_height (ctl : Control) (s : State) (v : XojPageView)
  (h W Hp : float) (more : PopplerDocument) :
  currentPageNo ctl <> (-1)%Z ->
  viewFor ctl = Some v ->
  initalTex (self s) = "" ->
  selected_height ctl = Some h ->
  is_zero h = false ->
  exists s1 img,
    findSelectedTexElement ctl s = Ok tt s1 /\
    convertDocumentToImage (self s1) ((W, Hp) :: more) = Some img /\
    img_height img = h /\
    img_x img = xOnView ctl /\
    img_y img = yOnView ctl /\
    img_text img = initalTex (self s1) /\
    (is_zero (W / Hp) = false -> img_width img = (h * (W / Hp))%float).
Proof.
  intros Hpage Hview Hini Hsel Hh.
  apply Z.eqb_neq in Hpage.
  unfold findSelectedTexElement. rewrite Hpage, Hview.
  unfold selected_height in Hsel.
  destruct_state s. cbn in Hini. subst iT.
  destruct (selectedTex ctl) as [[x y w h' [|a txt] bin]|] eqn:Htex;
    [| |destruct (selectedTxt ctl) as [[txt w h']|] eqn:Htxt];
    try discriminate Hsel; cbn in Hsel; injection Hsel as ->.
  all: destruct (is_zero (W / Hp)) eqn:Hr; destruct (is_zero w) eqn:Hw.
  all: do 2 eexists; (split; [vm_compute; reflexivity|]).
  all: unfold convertDocumentToImage; cbn; rewrite Hh; cbn; rewrite ?Hr, ?Hw.
  all: (split; [reflexivity|]).
  all: repeat split; intros; try reflexivity; discriminate.
Qed.

Lemma replacement_keeps_height_witness :
  exists s1 img,
    findSelectedTexElement formula_selected new_session = Ok tt s1 /\
    convertDocumentToImage (self s1) [(60%float, 12%float)] = Some img /\
    img_height img = 12%float /\
    img_x img = 10%float /\
    img_y img = 20%float.
Proof.
  destruct (replacement_keeps_height formula_selected new_session 2%nat
              12 60 12 [])
    as [s1 [img [H1 [H2 [H3 [H4 [H5 _]]]]]]].
  - cbn. discriminate.
  - reflexivity.
  - reflexivity.
  - reflexivity.
  - reflexivity.
  - exists s1, img. repeat split; assumption.
Defined.

(** ** The template *)

Lemma append_cancel_l (p a b : string) :
  (p ++ a)%string = (p ++ b)%string -> a = b.
Proof.
  induction p as [|c p IH]; intros H; [exact H|].
  change (String c (p ++ a) = String c (p ++ b)) in H.
  injection H as H. exact (IH H).
Qed.

Lemma length_append (a b : string) :
  String.length (a ++ b) = (String.length a + String.length b)%nat.
Proof.
  induction a as [|c a IH]; [reflexivity|].
  change (S (String.length (a ++ b)) = S (String.length a + String.length b)).
  rewrite IH. reflexivity.
Qed.

Lemma append_cancel_r (z : string) : forall a b : string,
  (a ++ z)%string = (b ++ z)%string -> a = b.
Proof.
  induction a as [|c a IH]; intros [|c' b] H.
  - reflexivity.
  - apply (f_equal String.length) in H.
    change (String c' b ++ z)%string with (String c' (b ++ z)) in H.
    change ("" ++ z)%string with z in H.
    cbn [String.length] in H. rewrite length_append in H. lia.
  - apply (f_equal String.length) in H.
    change (String c a ++ z)%string with (String c (a ++ z)) in H.
    change ("" ++ z)%string with z in H.
    cbn [String.length] in H. rewrite length_append in H. lia.
  - change (String c (a ++ z) = String c' (b ++ z)) in H.
    injection H as -> H. rewrite (IH b H). reflexivity.
Qed.

(** The formula can be read back from tex.tex: two texts that give the
    same file are the same text, so each entry of [invocations] stands for
    one input text. *)
Theorem texContents_injective (a b : string) :
  texContents a = texContents b -> a = b.
Proof.
  unfold texContents. intros H.
  apply append_cancel_l in H. apply append_cancel_r in H. exact H.
Qed.

Lemma texContents_injective_witness : "x^2" = "x^2".
Proof.
  apply (texContents_injective "x^2" "x^2"). reflexivity.
Defined.
